(** * QR code generator: a shallow embedding of [qr_code_generator.py]

    The program is a Tk form around one call into the [qrcode] library.
    What lives in the repository is state handling: the generator object
    with its four attributes, the two click handlers, and the exceptions
    they raise or catch.  The [qrcode] encoder, PIL's [resize] and [save]
    and Python's [repr] are outside the repository; they are collected in
    the class [External] and every definition and theorem is parametric
    in it. *)

From Stdlib Require Import ZArith NArith List String Ascii Lia.
From stdpp Require Import base option gmap list.
Import ListNotations.

Local Open Scope Z_scope.

(** ** Python values *)

(** A Python [str] is a sequence of Unicode code points. *)
Abbreviation str := (list N).

(** Literals of the source, written as Rocq strings. *)
Definition py (s : string) : str :=
  List.map N_of_ascii (list_ascii_of_string s).

(** [str.isspace] on one code point (CPython's [_PyUnicode_IsWhitespace]). *)
Definition isspace (c : N) : bool :=
  ((9 <=? c) && (c <=? 13) || (28 <=? c) && (c <=? 32)
   || (c =? 133) || (c =? 160) || (c =? 5760)
   || (8192 <=? c) && (c <=? 8202)
   || (c =? 8232) || (c =? 8233) || (c =? 8239) || (c =? 8287)
   || (c =? 12288))%N.

Fixpoint lstrip (s : str) : str :=
  match s with
  | [] => []
  | c :: t => if isspace c then lstrip t else s
  end.

Definition rstrip (s : str) : str := rev (lstrip (rev s)).

(** [s.strip()] *)
Definition strip (s : str) : str := rstrip (lstrip s).

(** Truth value of a [str]: [not s] holds exactly for the empty string. *)
Definition truthy (s : str) : bool :=
  match s with [] => false | _ :: _ => true end.

(** [s[:n]] for [n >= 0]. *)
Definition slice_to (n : nat) (s : str) : str := firstn n s.

(** ** The error-correction table *)

(** The four constants of [qrcode.constants]. *)
Inductive ErrorCorrect : Type :=
| ERROR_CORRECT_L
| ERROR_CORRECT_M
| ERROR_CORRECT_Q
| ERROR_CORRECT_H.

Definition ErrorCorrect_eqb (a b : ErrorCorrect) : bool :=
  match a, b with
  | ERROR_CORRECT_L, ERROR_CORRECT_L
  | ERROR_CORRECT_M, ERROR_CORRECT_M
  | ERROR_CORRECT_Q, ERROR_CORRECT_Q
  | ERROR_CORRECT_H, ERROR_CORRECT_H => true
  | _, _ => false
  end.

Definition str_eqb (a b : str) : bool := bool_decide (a = b).

(** A dict literal keeps its insertion order ([keys()] feeds the dropdown),
    so the class attribute is an association list. *)
Definition ERROR_LEVELS : list (str * ErrorCorrect) :=
  [ (py "Low (7%)", ERROR_CORRECT_L);
    (py "Medium (15%)", ERROR_CORRECT_M);
    (py "Quartile (25%)", ERROR_CORRECT_Q);
    (py "High (30%)", ERROR_CORRECT_H) ].

(** Lookup shared by [d.get(k, default)] and [d[k]]. *)
Fixpoint dict_lookup {V : Type} (d : list (str * V)) (k : str) : option V :=
  match d with
  | [] => None
  | (k', v) :: rest => if str_eqb k' k then Some v else dict_lookup rest k
  end.

(** [d.get(k, default)] *)
Definition dict_get {V : Type} (d : list (str * V)) (k : str) (default : V) : V :=
  match dict_lookup d k with
  | Some v => v
  | None => default
  end.

(** [list(d.keys())] *)
Definition dict_keys {V : Type} (d : list (str * V)) : list str :=
  List.map fst d.

(** The share of damaged codewords a level can restore, read off the
    table's own labels: the number between the parenthesis and the percent
    sign. *)
Fixpoint after_paren (s : str) : str :=
  match s with
  | [] => []
  | c :: t => if (c =? 40)%N then t else after_paren t
  end.

Fixpoint leading_number (s : str) (acc : Z) : Z :=
  match s with
  | [] => acc
  | c :: t =>
      if ((48 <=? c) && (c <=? 57))%N
      then leading_number t (10 * acc + (Z.of_N c - 48))
      else acc
  end.

Definition label_percent (label : str) : Z :=
  leading_number (after_paren label) 0.

Definition correctable_percent (e : ErrorCorrect) : Z :=
  match find (fun kv => ErrorCorrect_eqb (snd kv) e) ERROR_LEVELS with
  | Some (label, _) => label_percent label
  | None => 0
  end.

(** Low < Medium < Quartile < High *)
Definition robustness_rank (e : ErrorCorrect) : nat :=
  match e with
  | ERROR_CORRECT_L => 0
  | ERROR_CORRECT_M => 1
  | ERROR_CORRECT_Q => 2
  | ERROR_CORRECT_H => 3
  end.

(** The share of codewords the encoder restores at each of its four
    constants, as the [qrcode] library documents them (the levels L, M, Q
    and H of the QR standard): about 7, 15, 25 and 30 percent.  It is a
    fact about the constants and does not look at the table. *)
Definition recovery_percent (e : ErrorCorrect) : Z :=
  match e with
  | ERROR_CORRECT_L => 7
  | ERROR_CORRECT_M => 15
  | ERROR_CORRECT_Q => 25
  | ERROR_CORRECT_H => 30
  end.

(** The name a label starts with: the text before the first space. *)
Fixpoint first_word (s : str) : str :=
  match s with
  | [] => []
  | c :: t => if (c =? 32)%N then [] else c :: first_word t
  end.

(** The place of the user's choice in Low < Medium < Quartile < High,
    read off the name on the label. *)
Definition label_rank (label : str) : option nat :=
  if str_eqb (first_word label) (py "Low") then Some 0%nat
  else if str_eqb (first_word label) (py "Medium") then Some 1%nat
  else if str_eqb (first_word label) (py "Quartile") then Some 2%nat
  else if str_eqb (first_word label) (py "High") then Some 3%nat
  else None.

(** ** Exceptions *)

Inductive Exception : Type :=
| ValueError (msg : str)
| KeyError (key : str)
| AttributeError (msg : str)
| LibraryError (cls msg : str).   (* raised inside qrcode, PIL or Tk *)

(** ** What is outside the repository *)

Class External : Type := {
  (** pixel content of a PIL image *)
  Bitmap : Type;
  (** the file system *)
  Files : Type;
  (** [QRCode(version=None, error_correction, box_size, border)], then
      [add_data(data)], [make(fit=True)] and
      [make_image(fill_color, back_color)]: an image or an exception *)
  qr_render : ErrorCorrect -> Z -> Z -> str -> str -> str -> Exception + Bitmap;
  (** [Image.resize((w, h), Image.Resampling.NEAREST)]: a new image *)
  pil_resize : Bitmap -> Z -> Z -> Bitmap;
  (** [Image.save(filepath)]: writes, or raises; whatever it does to the
      file system *)
  pil_save : Bitmap -> str -> Files -> (Exception + unit) * Files;
  (** [repr] of a [str] *)
  py_repr : str -> str
}.

(** Image objects live in a heap and are named by references. *)
Abbreviation ref := positive.

(** What the user saw: message boxes and the file dialog. *)
Inductive UIEvent : Type :=
| showwarning (title message : str)
| showerror (title message : str)
| showinfo (title message : str)
| asksaveasfilename (answer : str).

(** Attributes set by [QRCodeGenerator.__init__]. *)
Record QRCodeGenerator : Type := {
  box_size : Z;
  border : Z;
  error_correction : ErrorCorrect;
  last_generated_image : option ref        (* [None] or an image object *)
}.

Section Program.
Context {ext : External}.

(** The [QRCodeApp] instance (the inherited attributes in [self]), the
    image objects, the file system and the dialogs shown so far. *)
Record World : Type := {
  self : QRCodeGenerator;
  text_input : str;                  (* content of the Text widget *)
  error_var : str;
  size_var : Z;
  status_var : str;
  qr_label_image : option ref;
  qr_label_text : str;
  photo : option ref;
  heap : gmap ref Bitmap;
  files : Files;
  screen : list UIEvent
}.

(** *** Attribute updates *)

Definition with_self (g : QRCodeGenerator) (w : World) : World :=
  {| self := g; text_input := text_input w; error_var := error_var w;
     size_var := size_var w; status_var := status_var w;
     qr_label_image := qr_label_image w; qr_label_text := qr_label_text w;
     photo := photo w; heap := heap w; files := files w; screen := screen w |}.

Definition with_box_size (v : Z) (w : World) : World :=
  with_self {| box_size := v; border := border (self w);
               error_correction := error_correction (self w);
               last_generated_image := last_generated_image (self w) |} w.

Definition with_error_correction (v : ErrorCorrect) (w : World) : World :=
  with_self {| box_size := box_size (self w); border := border (self w);
               error_correction := v;
               last_generated_image := last_generated_image (self w) |} w.

Definition with_last_generated_image (v : option ref) (w : World) : World :=
  with_self {| box_size := box_size (self w); border := border (self w);
               error_correction := error_correction (self w);
               last_generated_image := v |} w.

Definition with_text_input (v : str) (w : World) : World :=
  {| self := self w; text_input := v; error_var := error_var w;
     size_var := size_var w; status_var := status_var w;
     qr_label_image := qr_label_image w; qr_label_text := qr_label_text w;
     photo := photo w; heap := heap w; files := files w; screen := screen w |}.

Definition with_error_var (v : str) (w : World) : World :=
  {| self := self w; text_input := text_input w; error_var := v;
     size_var := size_var w; status_var := status_var w;
     qr_label_image := qr_label_image w; qr_label_text := qr_label_text w;
     photo := photo w; heap := heap w; files := files w; screen := screen w |}.

Definition with_size_var (v : Z) (w : World) : World :=
  {| self := self w; text_input := text_input w; error_var := error_var w;
     size_var := v; status_var := status_var w;
     qr_label_image := qr_label_image w; qr_label_text := qr_label_text w;
     photo := photo w; heap := heap w; files := files w; screen := screen w |}.

Definition with_status_var (v : str) (w : World) : World :=
  {| self := self w; text_input := text_input w; error_var := error_var w;
     size_var := size_var w; status_var := v;
     qr_label_image := qr_label_image w; qr_label_text := qr_label_text w;
     photo := photo w; heap := heap w; files := files w; screen := screen w |}.

Definition with_qr_label (img : option ref) (txt : str) (w : World) : World :=
  {| self := self w; text_input := text_input w; error_var := error_var w;
     size_var := size_var w; status_var := status_var w;
     qr_label_image := img; qr_label_text := txt;
     photo := photo w; heap := heap w; files := files w; screen := screen w |}.

Definition with_photo (v : option ref) (w : World) : World :=
  {| self := self w; text_input := text_input w; error_var := error_var w;
     size_var := size_var w; status_var := status_var w;
     qr_label_image := qr_label_image w; qr_label_text := qr_label_text w;
     photo := v; heap := heap w; files := files w; screen := screen w |}.

Definition with_heap (v : gmap ref Bitmap) (w : World) : World :=
  {| self := self w; text_input := text_input w; error_var := error_var w;
     size_var := size_var w; status_var := status_var w;
     qr_label_image := qr_label_image w; qr_label_text := qr_label_text w;
     photo := photo w; heap := v; files := files w; screen := screen w |}.

Definition with_files (v : Files) (w : World) : World :=
  {| self := self w; text_input := text_input w; error_var := error_var w;
     size_var := size_var w; status_var := status_var w;
     qr_label_image := qr_label_image w; qr_label_text := qr_label_text w;
     photo := photo w; heap := heap w; files := v; screen := screen w |}.

Definition with_screen (v : list UIEvent) (w : World) : World :=
  {| self := self w; text_input := text_input w; error_var := error_var w;
     size_var := size_var w; status_var := status_var w;
     qr_label_image := qr_label_image w; qr_label_text := qr_label_text w;
     photo := photo w; heap := heap w; files := files w; screen := v |}.

(** *** Statements: state that survives a raised exception *)

Definition Py (A : Type) : Type := World -> (Exception + A) * World.

Definition ret {A : Type} (a : A) : Py A := fun w => (inr a, w).

Definition raise {A : Type} (e : Exception) : Py A := fun w => (inl e, w).

Definition bind {A B : Type} (m : Py A) (k : A -> Py B) : Py B :=
  fun w =>
    match m w with
    | (inl e, w') => (inl e, w')
    | (inr a, w') => k a w'
    end.

(** [try: body except Exception as e: handler(e)] *)
Definition try_except {A : Type} (body : Py A) (handler : Exception -> Py A) : Py A :=
  fun w =>
    match body w with
    | (inl e, w') => handler e w'
    | (inr a, w') => (inr a, w')
    end.

Definition get : Py World := fun w => (inr w, w).

Definition modify (f : World -> World) : Py unit := fun w => (inr tt, f w).

End Program.

Declare Scope py_scope.
Delimit Scope py_scope with py.
Notation "'let!' x ':=' m 'in' k" := (bind m (fun x => k))
  (at level 10, x name, m at level 100, k at level 200) : py_scope.
Notation "m ';;;' k" := (bind m (fun _ => k))
  (at level 100, k at level 200, right associativity) : py_scope.
Local Open Scope py_scope.

Section Methods.
Context {ext : External}.

(** *** Library calls seen from the program *)

(** A new object on the heap. *)
Definition alloc (b : Bitmap) : Py ref :=
  fun w =>
    let r := fresh (dom (heap w)) in
    (inr r, with_heap (<[r := b]> (heap w)) w).

(** The pixels behind a reference. *)
Definition deref (r : ref) : Py Bitmap :=
  fun w =>
    match heap w !! r with
    | Some b => (inr b, w)
    | None => (inl (AttributeError (py "no such object")), w)
    end.

(** An outcome computed by a library, raised when it is an exception. *)
Definition lift {A : Type} (r : Exception + A) : Py A :=
  match r with
  | inl e => raise e
  | inr a => ret a
  end.

(** [messagebox.showwarning], [showerror], [showinfo]: the dialog is shown. *)
Definition show (ev : UIEvent) : Py unit :=
  modify (fun w => with_screen (screen w ++ [ev]) w).

(** [str(e)] *)
Definition str_of_exception (e : Exception) : str :=
  match e with
  | ValueError msg => msg
  | KeyError key => py_repr key
  | AttributeError msg => msg
  | LibraryError _ msg => msg
  end.

(** [d[k]] *)
Definition dict_getitem {V : Type} (d : list (str * V)) (k : str) : Py V :=
  match dict_lookup d k with
  | Some v => ret v
  | None => raise (KeyError k)
  end.

(** ** class QRCodeGenerator *)

(** [__init__(self, box_size=10, border=4, error_correction='Medium (15%)')] *)
Definition QRCodeGenerator__init__ (box_size border : Z) (error_correction : str)
  : QRCodeGenerator :=
  {| box_size := box_size;
     border := border;
     error_correction := dict_get ERROR_LEVELS error_correction ERROR_CORRECT_M;
     last_generated_image := None |}.

(** [generate(self, data, fill_color='black', back_color='white')] *)
Definition generate (data fill_color back_color : str) : Py (option ref) :=
  if negb (truthy (strip data)) then
    raise (ValueError (py "Please enter text or URL to generate QR code"))
  else
    let! w := get in
    let! img := lift (qr_render (error_correction (self w)) (box_size (self w))
                                (border (self w)) data fill_color back_color) in
    let! r := alloc img in
    modify (with_last_generated_image (Some r)) ;;;
    let! w := get in
    ret (last_generated_image (self w)).

(** The world after [generate] has put the image [img] on the heap and
    into [self.last_generated_image]. *)
Definition stored (img : Bitmap) (w : World) : World :=
  with_last_generated_image (Some (fresh (dom (heap w))))
    (with_heap (<[fresh (dom (heap w)) := img]> (heap w)) w).

(** [save(self, filepath)] *)
Definition save (filepath : str) : Py unit :=
  let! w := get in
  match last_generated_image (self w) with
  | None => raise (ValueError (py "No QR code generated yet"))
  | Some r =>
      let! img := deref r in
      fun w => let (res, fs) := pil_save img filepath (files w) in
               (res, with_files fs w)
  end.

(** ** class QRCodeApp(QRCodeGenerator) *)

(** [__init__(self)]: [super().__init__()] with its defaults, then the
    widgets of [_create_widgets] with their initial values. *)
Definition QRCodeApp__init__ (fs : Files) : World :=
  {| self := QRCodeGenerator__init__ 10 4 (py "Medium (15%)");
     text_input := [];
     error_var := py "Medium (15%)";
     size_var := 10;
     status_var := py "Ready";
     qr_label_image := None;
     qr_label_text := py "QR code will appear here";
     photo := None;
     heap := ∅;
     files := fs;
     screen := [] |}.

(** The values offered by the read-only dropdown. *)
Definition error_dropdown_values : list str := dict_keys ERROR_LEVELS.

(** [self.text_input.get("1.0", tk.END)]: the content and Tk's final newline. *)
Definition text_input_get : Py str :=
  fun w => (inr (text_input w ++ [10%N]), w).

(** The two assignments that open the [try] block of [_on_generate]. *)
Definition update_settings : Py unit :=
  let! w := get in
  modify (with_box_size (size_var w)) ;;;
  let! w := get in
  let! level := dict_getitem ERROR_LEVELS (error_var w) in
  modify (with_error_correction level).

(** The rest of the [try] block, after [qr_image = self.generate(data)]. *)
Definition display (qr_image : option ref) (data : str) : Py unit :=
  let display_size := 250 in
  let! img :=
    match qr_image with
    | Some r => deref r                        (* [qr_image.get_image()] *)
    | None => raise (AttributeError (py "'NoneType' object has no attribute 'get_image'"))
    end in
  let! qr_image_resized := alloc (pil_resize img display_size display_size) in
  let! resized := deref qr_image_resized in
  let! p := alloc resized in                   (* [ImageTk.PhotoImage(...)] *)
  modify (with_photo (Some p)) ;;;
  let! w := get in
  modify (with_qr_label (photo w) []) ;;;
  modify (with_status_var (py "Generated QR code for: " ++ slice_to 30 data ++ py "...")).

(** [_on_generate(self)] *)
Definition _on_generate : Py unit :=
  let! raw := text_input_get in
  let data := strip raw in
  if negb (truthy data) then
    show (showwarning (py "Warning") (py "Please enter text or URL"))
  else
    try_except
      (update_settings ;;;
       let! qr_image := generate data (py "black") (py "white") in
       display qr_image data)
      (fun e =>
         show (showerror (py "Error") (str_of_exception e)) ;;;
         modify (with_status_var (py "Error generating QR code"))).

(** [_on_save(self)]; [chosen] is what the user answers in the file dialog
    (the empty string when the dialog is cancelled). *)
Definition _on_save (chosen : str) : Py unit :=
  let! w := get in
  match last_generated_image (self w) with
  | None =>
      show (showwarning (py "Warning") (py "Generate a QR code first before saving"))
  | Some _ =>
      show (asksaveasfilename chosen) ;;;
      let filepath := chosen in
      if truthy filepath then
        try_except
          (save filepath ;;;
           modify (with_status_var (py "Saved to: " ++ filepath)) ;;;
           show (showinfo (py "Success") (py "QR code saved to:" ++ [10%N] ++ filepath)))
          (fun e =>
             show (showerror (py "Error")
                             (py "Could not save file: " ++ str_of_exception e)))
      else ret tt
  end.

End Methods.

(** ** A stand-in for the libraries

    Used to run the program on concrete inputs.  An image is described by
    the request that produced it; of the encoder it keeps the failure
    that bounds its domain: [make(fit=True)] raises [DataOverflowError]
    when the data does not fit the largest symbol (version 40).  The
    densest mode (numeric) spends 10 bits on 3 characters, so a text of
    [n] characters needs at least [10 * n / 3] bits, and the stand-in
    rejects a text only when this lower bound exceeds the limit. *)
Module Standin.

Record Picture : Type := {
  pic_level : ErrorCorrect;
  pic_box_size : Z;
  pic_border : Z;
  pic_data : str;
  pic_fill : str;
  pic_back : str;
  pic_scaled : option (Z * Z)        (* [None]: native resolution *)
}.

(** Data bits of a version-40 symbol (last column of [BIT_LIMIT_TABLE]). *)
Definition bit_limit_40 (e : ErrorCorrect) : Z :=
  match e with
  | ERROR_CORRECT_L => 23648
  | ERROR_CORRECT_M => 18672
  | ERROR_CORRECT_Q => 13328
  | ERROR_CORRECT_H => 10208
  end.

Definition render (e : ErrorCorrect) (box border : Z) (data fill back : str)
  : Exception + Picture :=
  if bit_limit_40 e <? 10 * Z.of_nat (length data) / 3 then
    inl (LibraryError (py "DataOverflowError") [])
  else
    inr {| pic_level := e; pic_box_size := box; pic_border := border;
           pic_data := data; pic_fill := fill; pic_back := back;
           pic_scaled := None |}.

Definition resize (p : Picture) (w h : Z) : Picture :=
  {| pic_level := pic_level p; pic_box_size := pic_box_size p;
     pic_border := pic_border p; pic_data := pic_data p;
     pic_fill := pic_fill p; pic_back := pic_back p;
     pic_scaled := Some (w, h) |}.

(** A path without a dot has no extension PIL knows. *)
Definition write (p : Picture) (path : str) (fs : gmap str Picture)
  : (Exception + unit) * gmap str Picture :=
  if existsb (N.eqb 46) path then (inr tt, <[path := p]> fs)
  else (inl (ValueError (py "unknown file extension: ")), fs).

Definition quote (s : str) : str := py "'" ++ s ++ py "'".

#[export] Instance lib : External := {|
  Bitmap := Picture;
  Files := gmap str Picture;
  qr_render := render;
  pil_resize := resize;
  pil_save := write;
  py_repr := quote
|}.

(** The application right after start, nothing on disk. *)
Definition started : World := QRCodeApp__init__ (∅ : gmap str Picture).

End Standin.

(** ** Traces of the generator's methods *)

Inductive Call : Type :=
| call_generate (data fill_color back_color : str)
| call_save (filepath : str)
| type_text (s : str)
| choose_level (label : str)
| move_slider (n : Z)
| click_generate
| click_save (chosen : str).

Section Traces.
Context {ext : External}.

(** The world after a call; an exception that escapes is the caller's. *)
Definition after (c : Call) (w : World) : World :=
  match c with
  | call_generate d f b => snd (generate d f b w)
  | call_save p => snd (save p w)
  | type_text s => with_text_input s w
  | choose_level l => with_error_var l w
  | move_slider n => with_size_var n w
  | click_generate => snd (_on_generate w)
  | click_save p => snd (_on_save p w)
  end.

Definition run (cs : list Call) (w : World) : World :=
  fold_left (fun w c => after c w) cs w.

(** The text [_on_generate] hands to [generate]. *)
Definition entered (w : World) : str := strip (text_input w ++ [10%N]).

(** The attempt inside [_on_generate]: the settings, then [generate]. *)
Definition attempt (w : World) : (Exception + option ref) * World :=
  (update_settings ;;; generate (entered w) (py "black") (py "white")) w.

(** The world the [except] branch of [_on_generate] leaves. *)
Definition reported (e : Exception) (w : World) : World :=
  with_status_var (py "Error generating QR code")
    (with_screen (screen w ++ [showerror (py "Error") (str_of_exception e)]) w).

(** What [generate] returned during a call, when it ran and succeeded. *)
Definition generated (c : Call) (w : World) : option ref :=
  match c with
  | call_generate d f b =>
      match generate d f b w with
      | (inr v, _) => v
      | (inl _, _) => None
      end
  | click_generate =>
      if truthy (entered w) then
        match attempt w with
        | (inr v, _) => v
        | (inl _, _) => None
        end
      else None
  | _ => None
  end.

(** The value of the most recent successful [generate] along a trace,
    [acc] when there was none. *)
Fixpoint latest (cs : list Call) (w : World) (acc : option ref) : option ref :=
  match cs with
  | [] => acc
  | c :: rest =>
      latest rest (after c w)
             (match generated c w with Some r => Some r | None => acc end)
  end.

End Traces.

(** ** What the form lets the user do *)

(** The slider runs from 5 to 20. *)
Definition from_slider (c : Call) : bool :=
  match c with
  | move_slider n => (5 <=? n) && (n <=? 20)
  | _ => true
  end.

(** The read-only dropdown offers the keys of the table and nothing else. *)
Definition from_dropdown (c : Call) : bool :=
  match c with
  | choose_level l => existsb (str_eqb l) error_dropdown_values
  | _ => true
  end.

(** The calls that reach [save]. *)
Definition is_save (c : Call) : bool :=
  match c with
  | call_save _ | click_save _ => true
  | _ => false
  end.

(** The status line of a successful generate. *)
Definition generated_status (data : str) : str :=
  py "Generated QR code for: " ++ slice_to 30 data ++ py "...".

Section Shown.
Context {ext : External}.

(** The world after the two assignments of [update_settings], when the
    label is in the table. *)
Definition settled (level : ErrorCorrect) (w : World) : World :=
  with_error_correction level (with_box_size (size_var w) w).

(** One more object on the heap: [img] rescaled to the preview size. *)
Definition resized_in (img : Bitmap) (h : gmap ref Bitmap) : gmap ref Bitmap :=
  <[fresh (dom h) := pil_resize img 250 250]> h.

(** The heap after [display]: the resized image, then the PhotoImage. *)
Definition preview_heap (img : Bitmap) (h : gmap ref Bitmap) : gmap ref Bitmap :=
  resized_in img (resized_in img h).

(** The reference of the PhotoImage. *)
Definition preview_ref (img : Bitmap) (h : gmap ref Bitmap) : ref :=
  fresh (dom (resized_in img h)).

(** The world [display] leaves when it has shown an image: the heap [h]
    with the two new objects, the PhotoImage [p] in the label. *)
Definition shown (h : gmap ref Bitmap) (p : ref) (data : str) (w : World) : World :=
  with_status_var (generated_status data)
    (with_qr_label (Some p) [] (with_photo (Some p) (with_heap h w))).

(** The worlds [_on_save] leaves once the dialog has been answered with a
    path and [save] has run: [fs] is the file system the writer left. *)
Definition saved (filepath : str) (fs : Files) (w : World) : World :=
  with_screen
    (screen w ++ [asksaveasfilename filepath;
                  showinfo (py "Success") (py "QR code saved to:" ++ [10%N] ++ filepath)])
    (with_status_var (py "Saved to: " ++ filepath) (with_files fs w)).

Definition not_saved (filepath : str) (e : Exception) (fs : Files) (w : World) : World :=
  with_screen
    (screen w ++ [asksaveasfilename filepath;
                  showerror (py "Error") (py "Could not save file: " ++ str_of_exception e)])
    (with_files fs w).

(** The stored reference names an object of the heap. *)
Definition stored_is_live (w : World) : Prop :=
  forall r, last_generated_image (self w) = Some r -> is_Some (heap w !! r).

(** Every path through a call, with the world it leaves.  [after] follows
    exactly one of them (lemma [after_outcome]). *)
Inductive outcome (w : World) : Call -> World -> Prop :=
| generate_raised d f b :
    outcome w (call_generate d f b) w
| generate_stored d f b img :
    qr_render (error_correction (self w)) (box_size (self w)) (border (self w))
              d f b = inr img ->
    outcome w (call_generate d f b) (stored img w)
| save_ran p fs :
    outcome w (call_save p) (with_files fs w)
| text_typed s :
    outcome w (type_text s) (with_text_input s w)
| level_chosen l :
    outcome w (choose_level l) (with_error_var l w)
| slider_moved n :
    outcome w (move_slider n) (with_size_var n w)
| click_blank :
    truthy (entered w) = false ->
    outcome w click_generate
      (with_screen (screen w ++ [showwarning (py "Warning")
                                   (py "Please enter text or URL")]) w)
| click_unknown_label :
    truthy (entered w) = true ->
    dict_lookup ERROR_LEVELS (error_var w) = None ->
    outcome w click_generate
      (reported (KeyError (error_var w)) (with_box_size (size_var w) w))
| click_refused level e :
    truthy (entered w) = true ->
    dict_lookup ERROR_LEVELS (error_var w) = Some level ->
    qr_render level (size_var w) (border (self w)) (entered w)
              (py "black") (py "white") = inl e ->
    outcome w click_generate (reported e (settled level w))
| click_shown level img :
    truthy (entered w) = true ->
    dict_lookup ERROR_LEVELS (error_var w) = Some level ->
    qr_render level (size_var w) (border (self w)) (entered w)
              (py "black") (py "white") = inr img ->
    outcome w click_generate
      (shown (preview_heap img (heap (stored img (settled level w))))
             (preview_ref img (heap (stored img (settled level w))))
             (entered w) (stored img (settled level w)))
| save_warned p :
    last_generated_image (self w) = None ->
    outcome w (click_save p)
      (with_screen (screen w ++ [showwarning (py "Warning")
                                   (py "Generate a QR code first before saving")]) w)
| save_cancelled p :
    last_generated_image (self w) <> None ->
    truthy p = false ->
    outcome w (click_save p) (with_screen (screen w ++ [asksaveasfilename p]) w)
| save_done p fs :
    last_generated_image (self w) <> None ->
    outcome w (click_save p) (saved p fs w)
| save_failed p e fs :
    last_generated_image (self w) <> None ->
    outcome w (click_save p) (not_saved p e fs w).

End Shown.

(** ** Concrete inputs *)

Module Runs.
Import Standin.

(** The form with a text typed in. *)
Definition hello : World := with_text_input (py "  hello world ") started.

(** 8000 times the letter a. *)
Definition long_text : str := repeat 97%N (N.to_nat 8000).

Definition black : str := py "black".
Definition white : str := py "white".

Definition hello_picture : @Bitmap lib :=
  {| pic_level := ERROR_CORRECT_M; pic_box_size := 10; pic_border := 4;
     pic_data := py "hello world"; pic_fill := black; pic_back := white;
     pic_scaled := None |}.

(** A text of 40 characters. *)
Definition forty : World :=
  with_text_input (py "0123456789abcdefghijABCDEFGHIJ0123456789") started.

End Runs.

(** * Properties *)

(** ** Trimming *)

Lemma lstrip_blank (s : str) : forallb isspace s = true -> lstrip s = [].
Proof.
  induction s as [|c t IH]; simpl; [reflexivity|].
  intros H. apply andb_prop in H as [Hc Ht]. rewrite Hc. auto.
Qed.

Lemma lstrip_nil_blank (s : str) : lstrip s = [] -> forallb isspace s = true.
Proof.
  induction s as [|c t IH]; simpl; [reflexivity|].
  destruct (isspace c); [auto | discriminate].
Qed.

Lemma lstrip_head (s : str) (c : N) (t : str) :
  lstrip s = c :: t -> isspace c = false.
Proof.
  induction s as [|a u IH]; simpl; [discriminate|].
  destruct (isspace a) eqn:Ha; [exact IH|].
  intros E. injection E as -> _. exact Ha.
Qed.

Lemma strip_blank (s : str) : forallb isspace s = true -> strip s = [].
Proof.
  intros H. unfold strip, rstrip. rewrite (lstrip_blank s H). reflexivity.
Qed.

Lemma strip_nil_blank (s : str) : strip s = [] -> forallb isspace s = true.
Proof.
  unfold strip, rstrip. intros H.
  apply lstrip_nil_blank.
  destruct (lstrip s) as [|c t] eqn:E; [reflexivity|exfalso].
  apply (f_equal (@rev N)) in H. rewrite rev_involutive in H. simpl in H.
  apply lstrip_nil_blank in H.
  rewrite forallb_app in H. apply andb_prop in H as [_ H]. simpl in H.
  rewrite (lstrip_head _ _ _ E) in H. discriminate.
Qed.

Lemma truthy_strip (s : str) : truthy (strip s) = negb (forallb isspace s).
Proof.
  destruct (forallb isspace s) eqn:E.
  - rewrite (strip_blank s E). reflexivity.
  - destruct (strip s) eqn:S; [|reflexivity].
    apply strip_nil_blank in S. congruence.
Qed.

Lemma lstrip_snoc (a : str) (c : N) :
  isspace c = false -> lstrip (a ++ [c]) = lstrip a ++ [c].
Proof.
  intros H. induction a as [|x a IH]; simpl.
  - rewrite H. reflexivity.
  - destruct (isspace x); [exact IH | reflexivity].
Qed.

Lemma rstrip_cons (c : N) (t : str) :
  isspace c = false -> rstrip (c :: t) = c :: rstrip t.
Proof.
  intros H. unfold rstrip. simpl.
  rewrite (lstrip_snoc _ _ H), rev_app_distr. reflexivity.
Qed.

Lemma rstrip_idempotent (s : str) : rstrip (rstrip s) = rstrip s.
Proof.
  unfold rstrip. rewrite rev_involutive. f_equal.
  induction (rev s) as [|c t IH]; simpl; [reflexivity|].
  destruct (isspace c) eqn:E; [exact IH|]. simpl. rewrite E. reflexivity.
Qed.

(** Trimming a trimmed text changes nothing: [_on_generate] trims, and
    [generate] trims again. *)
Lemma strip_idempotent (s : str) : strip (strip s) = strip s.
Proof.
  unfold strip. destruct (lstrip s) as [|c t] eqn:E; [reflexivity|].
  pose proof (lstrip_head _ _ _ E) as H.
  rewrite (rstrip_cons c t H). simpl. rewrite H.
  rewrite (rstrip_cons c _ H), rstrip_idempotent. reflexivity.
Qed.

Lemma truthy_nonempty (s : str) : s <> [] -> truthy s = true.
Proof. destruct s; [congruence | reflexivity]. Qed.

Section GeneratorFacts.
Context {ext : External}.

(** ** What one call of [generate] does *)

Lemma generate_blank (w : World) (data fill back : str) :
  truthy (strip data) = false ->
  generate data fill back w =
    (inl (ValueError (py "Please enter text or URL to generate QR code")), w).
Proof. intros H. unfold generate. rewrite H. reflexivity. Qed.

Lemma generate_rendered (w : World) (data fill back : str) (img : Bitmap) :
  truthy (strip data) = true ->
  qr_render (error_correction (self w)) (box_size (self w)) (border (self w))
            data fill back = inr img ->
  generate data fill back w = (inr (Some (fresh (dom (heap w)))), stored img w).
Proof.
  intros H R. unfold generate. rewrite H. simpl.
  unfold bind, get, lift. rewrite R. reflexivity.
Qed.

Lemma generate_refused (w : World) (data fill back : str) (e : Exception) :
  truthy (strip data) = true ->
  qr_render (error_correction (self w)) (box_size (self w)) (border (self w))
            data fill back = inl e ->
  generate data fill back w = (inl e, w).
Proof.
  intros H R. unfold generate. rewrite H. simpl.
  unfold bind, get, lift. rewrite R. reflexivity.
Qed.

Lemma stored_lookup (img : Bitmap) (w : World) :
  heap (stored img w) !! fresh (dom (heap w)) = Some img.
Proof. simpl. apply lookup_insert_eq. Qed.

Lemma fresh_unused (w : World) : heap w !! fresh (dom (heap w)) = None.
Proof. apply not_elem_of_dom. apply is_fresh. Qed.

Lemma stored_keeps (img : Bitmap) (w : World) (r : ref) (b : Bitmap) :
  heap w !! r = Some b -> heap (stored img w) !! r = Some b.
Proof.
  intros H. simpl. rewrite lookup_insert_ne; [exact H|].
  intros E. rewrite <- E in H. rewrite fresh_unused in H. discriminate.
Qed.

(** Every outcome of [generate], in one case analysis. *)
Lemma generate_cases (w : World) (data fill back : str) :
  (exists e, generate data fill back w = (inl e, w)) \/
  (exists img,
     qr_render (error_correction (self w)) (box_size (self w)) (border (self w))
               data fill back = inr img /\
     truthy (strip data) = true /\
     generate data fill back w = (inr (Some (fresh (dom (heap w)))), stored img w)).
Proof.
  destruct (truthy (strip data)) eqn:H.
  - destruct (qr_render (error_correction (self w)) (box_size (self w))
                        (border (self w)) data fill back) as [e|img] eqn:R.
    + left. exists e. apply generate_refused; assumption.
    + right. exists img. split; [reflexivity|]. split; [reflexivity|].
      apply generate_rendered; assumption.
  - left. eexists. apply generate_blank; assumption.
Qed.

(** ** What one call of [save] does *)

Lemma save_none (w : World) (filepath : str) :
  last_generated_image (self w) = None ->
  save filepath w = (inl (ValueError (py "No QR code generated yet")), w).
Proof. intros H. unfold save, bind, get. rewrite H. reflexivity. Qed.

Lemma save_some (w : World) (filepath : str) (r : ref) (img : Bitmap) :
  last_generated_image (self w) = Some r ->
  heap w !! r = Some img ->
  save filepath w =
    (fst (pil_save img filepath (files w)),
     with_files (snd (pil_save img filepath (files w))) w).
Proof.
  intros H L. unfold save, bind, get, deref. rewrite H, L.
  destruct (pil_save img filepath (files w)); reflexivity.
Qed.

(** [save] touches nothing but the file system. *)
Lemma save_frame (w : World) (filepath : str) :
  exists fs, snd (save filepath w) = with_files fs w.
Proof.
  unfold save, bind, get, deref.
  destruct (last_generated_image (self w)) as [r|].
  - destruct (heap w !! r) as [img|].
    + destruct (pil_save img filepath (files w)) as [res fs]. exists fs. reflexivity.
    + exists (files w). destruct w; reflexivity.
  - exists (files w). destruct w; reflexivity.
Qed.

End GeneratorFacts.

Section Preview.
Context {ext : External}.

(** ** The preview *)

(** [display] allocates two objects (the resized image, the PhotoImage)
    and sets the label and the status line; the generator's attributes,
    the files and the objects that existed before stay as they are. *)
Lemma display_self (w : World) (qr : option ref) (data : str) :
  self (snd (display qr data w)) = self w.
Proof.
  unfold display, bind, deref, alloc, modify, get, raise.
  destruct qr as [r|]; [|reflexivity].
  destruct (heap w !! r) as [img|]; [|reflexivity].
  simpl. rewrite lookup_insert_eq. reflexivity.
Qed.

Lemma display_files (w : World) (qr : option ref) (data : str) :
  files (snd (display qr data w)) = files w.
Proof.
  unfold display, bind, deref, alloc, modify, get, raise.
  destruct qr as [r|]; [|reflexivity].
  destruct (heap w !! r) as [img|]; [|reflexivity].
  simpl. rewrite lookup_insert_eq. reflexivity.
Qed.

Lemma insert_fresh_keeps (h : gmap ref Bitmap) (b img : Bitmap) (r : ref) :
  h !! r = Some img -> <[fresh (dom h) := b]> h !! r = Some img.
Proof.
  intros H. rewrite lookup_insert_ne; [exact H|].
  intros E. rewrite <- E in H.
  assert (h !! fresh (dom h) = None) as N
    by (apply not_elem_of_dom, is_fresh).
  congruence.
Qed.

Lemma display_heap (w : World) (qr : option ref) (data : str) (r : ref) (img : Bitmap) :
  heap w !! r = Some img -> heap (snd (display qr data w)) !! r = Some img.
Proof.
  intros H. unfold display, bind, deref, alloc, modify, get, raise.
  destruct qr as [q|]; [|exact H].
  destruct (heap w !! q) as [b|]; [|exact H].
  simpl. rewrite lookup_insert_eq. simpl.
  apply insert_fresh_keeps. apply insert_fresh_keeps. exact H.
Qed.

Lemma display_done (w : World) (r : ref) (img : Bitmap) (data : str) :
  heap w !! r = Some img ->
  fst (display (Some r) data w) = inr tt /\
  status_var (snd (display (Some r) data w)) =
    py "Generated QR code for: " ++ slice_to 30 data ++ py "..." /\
  photo (snd (display (Some r) data w)) <> Some r.
Proof.
  intros H. unfold display, bind, deref, alloc, modify, get, raise.
  rewrite H. simpl. rewrite lookup_insert_eq. simpl.
  split; [reflexivity|]. split; [reflexivity|].
  intros E. injection E as E.
  assert (<[fresh (dom (heap w)) := pil_resize img 250 250]> (heap w) !! r = Some img) as K
    by (apply insert_fresh_keeps; exact H).
  rewrite <- E in K.
  assert (forall h : gmap ref Bitmap, h !! fresh (dom h) = None) as N
    by (intros h; apply not_elem_of_dom, is_fresh).
  rewrite N in K. discriminate.
Qed.

End Preview.

Section Handlers.
Context {ext : External}.

(** ** The click handlers *)

#[local] Arguments dict_lookup {V} d k : simpl never.

Lemma update_settings_known (w : World) (e : ErrorCorrect) :
  dict_lookup ERROR_LEVELS (error_var w) = Some e ->
  update_settings w =
    (inr tt, with_error_correction e (with_box_size (size_var w) w)).
Proof.
  intros H. unfold update_settings, bind, get, modify, dict_getitem.
  simpl. rewrite H. reflexivity.
Qed.

Lemma update_settings_unknown (w : World) :
  dict_lookup ERROR_LEVELS (error_var w) = None ->
  update_settings w =
    (inl (KeyError (error_var w)), with_box_size (size_var w) w).
Proof.
  intros H. unfold update_settings, bind, get, modify, dict_getitem.
  simpl. rewrite H. reflexivity.
Qed.

Lemma update_settings_frame (w : World) :
  last_generated_image (self (snd (update_settings w))) = last_generated_image (self w)
  /\ heap (snd (update_settings w)) = heap w
  /\ files (snd (update_settings w)) = files w.
Proof.
  unfold update_settings, bind, get, modify, dict_getitem. simpl.
  destruct (dict_lookup ERROR_LEVELS (error_var w)); simpl; auto.
Qed.

Lemma on_generate_empty (w : World) :
  truthy (entered w) = false ->
  _on_generate w =
    (inr tt,
     with_screen (screen w ++ [showwarning (py "Warning") (py "Please enter text or URL")]) w).
Proof.
  intros H. unfold _on_generate, bind, text_input_get.
  fold (entered w). rewrite H. reflexivity.
Qed.

Lemma on_generate_failed (w w1 : World) (e : Exception) :
  truthy (entered w) = true ->
  attempt w = (inl e, w1) ->
  _on_generate w = (inr tt, reported e w1).
Proof.
  intros H A. unfold _on_generate, bind, text_input_get.
  fold (entered w). rewrite H. simpl.
  unfold attempt, bind in A. unfold try_except, bind.
  destruct (update_settings w) as [[e0|[]] w0].
  - injection A as -> ->. reflexivity.
  - rewrite A. reflexivity.
Qed.

(** A successful attempt returns a live image object, the stored one. *)
Lemma attempt_ok (w w1 : World) (v : option ref) :
  attempt w = (inr v, w1) ->
  exists r img,
    v = Some r /\ last_generated_image (self w1) = Some r /\
    heap w1 !! r = Some img /\ heap w !! r = None /\
    files w1 = files w /\
    qr_render (error_correction (self (snd (update_settings w))))
              (size_var w) (border (self w))
              (entered w) (py "black") (py "white") = inr img.
Proof.
  unfold attempt, bind. intros A.
  destruct (update_settings_frame w) as (_ & Hh & Hf).
  assert (box_size (self (snd (update_settings w))) = size_var w
          /\ border (self (snd (update_settings w))) = border (self w)) as [Hb Hd].
  { unfold update_settings, bind, get, modify, dict_getitem. simpl.
    destruct (dict_lookup ERROR_LEVELS (error_var w)); simpl; auto. }
  destruct (update_settings w) as [[e0|[]] w0]; [discriminate|].
  simpl in Hh, Hf, Hb, Hd.
  destruct (generate_cases w0 (entered w) (py "black") (py "white"))
    as [[e G]|(img & R & _ & G)]; rewrite G in A; [discriminate|].
  injection A as <- <-.
  exists (fresh (dom (heap w0))), img.
  split; [reflexivity|]. split; [reflexivity|].
  split; [apply stored_lookup|].
  split; [rewrite <- Hh; apply fresh_unused|].
  split; [exact Hf|].
  simpl. rewrite <- Hb, <- Hd. exact R.
Qed.

Lemma on_generate_shown (w w1 : World) (v : option ref) :
  truthy (entered w) = true ->
  attempt w = (inr v, w1) ->
  _on_generate w = (inr tt, snd (display v (entered w) w1)).
Proof.
  intros H A.
  destruct (attempt_ok w w1 v A) as (r & img & -> & _ & L & _).
  destruct (display_done w1 r img (entered w) L) as (D & _).
  unfold _on_generate, bind, text_input_get.
  fold (entered w). rewrite H. simpl.
  unfold attempt, bind in A. unfold try_except, bind.
  destruct (update_settings w) as [[e0|[]] w0]; [discriminate|].
  rewrite A.
  destruct (display (Some r) (entered w) w1) as [[e1|[]] w2]; [discriminate|].
  reflexivity.
Qed.

Lemma on_save_none (w : World) (chosen : str) :
  last_generated_image (self w) = None ->
  _on_save chosen w =
    (inr tt,
     with_screen (screen w ++ [showwarning (py "Warning")
                                 (py "Generate a QR code first before saving")]) w).
Proof. intros H. unfold _on_save, bind, get. rewrite H. reflexivity. Qed.

(** [_on_save] never changes the generator or the heap. *)
Lemma on_save_frame (w : World) (chosen : str) :
  self (snd (_on_save chosen w)) = self w /\
  heap (snd (_on_save chosen w)) = heap w /\
  fst (_on_save chosen w) = inr tt.
Proof.
  unfold _on_save, bind, get.
  destruct (last_generated_image (self w)) as [r|] eqn:L; [|simpl; auto].
  unfold show, modify. simpl.
  destruct (truthy chosen); [|simpl; auto].
  unfold try_except, bind.
  set (w1 := with_screen _ w).
  destruct (save_frame w1 chosen) as [fs F].
  destruct (save chosen w1) as [[e|[]] w2]; simpl in F; subst w2; simpl; auto.
Qed.

End Handlers.

Section Claims.
Context {ext : External}.

(** C1 (amended).  For every text that is non-empty after trimming and
    every setting of level, box size and border, [generate] succeeds
    exactly when the external encoder accepts the request: it then returns
    a non-[None] image object, which holds the encoder's image and is the
    stored last-generated image; when the encoder raises, [generate] fails
    with that exception and the world is as before. *)
Theorem generate_succeeds_when_encoder_accepts
    (w : World) (data fill_color back_color : str) :
  strip data <> [] ->
  match qr_render (error_correction (self w)) (box_size (self w))
                  (border (self w)) data fill_color back_color with
  | inr img =>
      exists r w',
        generate data fill_color back_color w = (inr (Some r), w') /\
        heap w' !! r = Some img /\
        last_generated_image (self w') = Some r
  | inl e => generate data fill_color back_color w = (inl e, w)
  end.
Proof.
  intros H. apply truthy_nonempty in H.
  destruct (qr_render _ _ _ data fill_color back_color) as [e|img] eqn:R.
  - apply generate_refused; assumption.
  - exists (fresh (dom (heap w))), (stored img w).
    split; [apply generate_rendered; assumption|].
    split; [apply stored_lookup | reflexivity].
Qed.

(** C2.  For every text that is empty or consists of whitespace only,
    [generate] raises [ValueError] and the whole world, the stored
    last-generated image included, is what it was before the call. *)
Theorem generate_rejects_blank (w : World) (data fill_color back_color : str) :
  forallb isspace data = true ->
  generate data fill_color back_color w =
    (inl (ValueError (py "Please enter text or URL to generate QR code")), w)
  /\ last_generated_image (self (snd (generate data fill_color back_color w)))
     = last_generated_image (self w).
Proof.
  intros H.
  assert (generate data fill_color back_color w =
            (inl (ValueError (py "Please enter text or URL to generate QR code")), w)) as G.
  { apply generate_blank. rewrite truthy_strip, H. reflexivity. }
  split; [exact G|]. rewrite G. reflexivity.
Qed.

(** C3.  While no image has been generated, [save] raises [ValueError]
    and leaves the world, the file system included, untouched; the Save
    button shows a warning, opens no file dialog, writes nothing and
    returns normally. *)
Theorem save_before_generate (w : World) (filepath chosen : str) :
  last_generated_image (self w) = None ->
  save filepath w = (inl (ValueError (py "No QR code generated yet")), w)
  /\ fst (_on_save chosen w) = inr tt
  /\ screen (snd (_on_save chosen w)) =
       screen w ++ [showwarning (py "Warning")
                      (py "Generate a QR code first before saving")]
  /\ files (snd (_on_save chosen w)) = files w.
Proof.
  intros H. split; [apply save_none; exact H|].
  rewrite (on_save_none w chosen H). simpl. auto.
Qed.

(** C6.  The preview never mutates or replaces the stored image: when
    [display] runs on what [generate] returned, the stored reference is
    still the one [generate] returned, the object behind it still holds
    the encoder's image, the PhotoImage is another object, and [save]
    afterwards hands exactly the encoder's image to the image writer, as
    it would have done before the rescaling. *)
Theorem preview_keeps_stored_image
    (w0 w : World) (data fill_color back_color shown : str) (qr : option ref) :
  generate data fill_color back_color w0 = (inr qr, w) ->
  exists r img,
    qr = Some r /\
    qr_render (error_correction (self w0)) (box_size (self w0)) (border (self w0))
              data fill_color back_color = inr img /\
    fst (display qr shown w) = inr tt /\
    last_generated_image (self (snd (display qr shown w))) = Some r /\
    heap (snd (display qr shown w)) !! r = Some img /\
    photo (snd (display qr shown w)) <> Some r /\
    forall filepath,
      fst (save filepath (snd (display qr shown w)))
        = fst (pil_save img filepath (files w)) /\
      files (snd (save filepath (snd (display qr shown w))))
        = snd (pil_save img filepath (files w)) /\
      fst (save filepath w) = fst (pil_save img filepath (files w)) /\
      files (snd (save filepath w)) = snd (pil_save img filepath (files w)).
Proof.
  intros G.
  destruct (generate_cases w0 data fill_color back_color)
    as [[e G']|(img & R & _ & G')]; rewrite G' in G; [discriminate|].
  injection G as <- <-.
  set (r := fresh (dom (heap w0))). set (w := stored img w0).
  assert (heap w !! r = Some img) as L by apply stored_lookup.
  assert (last_generated_image (self w) = Some r) as S by reflexivity.
  destruct (display_done w r img shown L) as (D & _ & P).
  exists r, img.
  split; [reflexivity|]. split; [exact R|]. split; [exact D|].
  assert (last_generated_image (self (snd (display (Some r) shown w))) = Some r) as S'
    by (rewrite display_self; exact S).
  assert (heap (snd (display (Some r) shown w)) !! r = Some img) as L'
    by (apply display_heap; exact L).
  split; [exact S'|]. split; [exact L'|]. split; [exact P|].
  intros filepath.
  rewrite (save_some _ filepath r img S' L'), (save_some _ filepath r img S L).
  simpl. rewrite display_files. auto.
Qed.

(** C7.  A successful [generate] stores the image it produced as the
    last-generated one, whatever was stored before (the object is new);
    a [save] that follows hands exactly this image to the image writer;
    and [save], whether it succeeds or raises, leaves the stored reference
    and every image object as they were. *)
Theorem generate_stores_and_save_reads
    (w w' : World) (data fill_color back_color : str) (v : option ref) :
  generate data fill_color back_color w = (inr v, w') ->
  (exists r img,
     qr_render (error_correction (self w)) (box_size (self w)) (border (self w))
               data fill_color back_color = inr img /\
     last_generated_image (self w') = Some r /\
     heap w' !! r = Some img /\
     heap w !! r = None /\
     forall filepath,
       save filepath w' =
         (fst (pil_save img filepath (files w')),
          with_files (snd (pil_save img filepath (files w'))) w'))
  /\ forall (u : World) (filepath : str),
       last_generated_image (self (snd (save filepath u)))
         = last_generated_image (self u)
       /\ heap (snd (save filepath u)) = heap u.
Proof.
  intros G. split.
  - destruct (generate_cases w data fill_color back_color)
      as [[e G']|(img & R & _ & G')]; rewrite G' in G; [discriminate|].
    injection G as <- <-.
    exists (fresh (dom (heap w))), img.
    split; [exact R|]. split; [reflexivity|].
    split; [apply stored_lookup|]. split; [apply fresh_unused|].
    intros filepath.
    apply (save_some _ filepath (fresh (dom (heap w))) img);
      [reflexivity | apply stored_lookup].
  - intros u filepath. destruct (save_frame u filepath) as [fs F].
    rewrite F. split; reflexivity.
Qed.

(** C8.  After every successful generate from the GUI the status line is
    the fixed prefix, the first 30 characters of the text handed to
    [generate] (all of it when it is shorter) and the fixed suffix ["..."];
    nothing else of the text enters it, so two texts that agree on their
    first 30 characters give the same status line, truncated or not. *)
Theorem status_shows_first_30 (w w1 : World) (v : option ref) :
  truthy (entered w) = true ->
  attempt w = (inr v, w1) ->
  status_var (snd (_on_generate w)) =
    py "Generated QR code for: " ++ slice_to 30 (entered w) ++ py "..."
  /\ length (slice_to 30 (entered w)) = Nat.min 30 (length (entered w))
  /\ forall (u u1 : World) (x : option ref),
       truthy (entered u) = true ->
       attempt u = (inr x, u1) ->
       slice_to 30 (entered u) = slice_to 30 (entered w) ->
       status_var (snd (_on_generate u)) = status_var (snd (_on_generate w)).
Proof.
  assert (forall (u u1 : World) (x : option ref),
            truthy (entered u) = true -> attempt u = (inr x, u1) ->
            status_var (snd (_on_generate u)) =
              py "Generated QR code for: " ++ slice_to 30 (entered u) ++ py "...") as K.
  { intros u u1 x H A. rewrite (on_generate_shown u u1 x H A). simpl.
    destruct (attempt_ok u u1 x A) as (r & img & -> & _ & L & _).
    apply (display_done u1 r img (entered u) L). }
  intros H A. split; [exact (K w w1 v H A)|].
  split; [apply length_firstn|].
  intros u u1 x Hu Au E. rewrite (K u u1 x Hu Au), (K w w1 v H A), E. reflexivity.
Qed.

(** C10.  Whenever [generate] succeeds, the value it returns is the value
    it has just stored in [last_generated_image]: one live image object,
    read by the preview through the return value and by [save] through
    the attribute. *)
Theorem generate_returns_stored
    (w w' : World) (data fill_color back_color : str) (v : option ref) :
  generate data fill_color back_color w = (inr v, w') ->
  last_generated_image (self w') = v
  /\ exists r img, v = Some r /\ heap w' !! r = Some img.
Proof.
  intros G.
  destruct (generate_cases w data fill_color back_color)
    as [[e G']|(img & R & _ & G')]; rewrite G' in G; [discriminate|].
  injection G as <- <-. split; [reflexivity|].
  exists (fresh (dom (heap w))), img. split; [reflexivity | apply stored_lookup].
Qed.

End Claims.

Section Levels.
Context {ext : External}.

#[local] Arguments dict_lookup {V} d k : simpl never.

(** ** The level table *)

Lemma str_eqb_eq (a b : str) : str_eqb a b = true <-> a = b.
Proof. unfold str_eqb. apply bool_decide_eq_true. Qed.

Lemma lookup_in_table (label : str) (e : ErrorCorrect) :
  dict_lookup ERROR_LEVELS label = Some e <-> In (label, e) ERROR_LEVELS.
Proof.
  split.
  - cbv [dict_lookup ERROR_LEVELS].
    repeat match goal with
           | |- context [str_eqb ?a label] =>
               destruct (str_eqb a label) eqn:E;
               [apply str_eqb_eq in E; subst label; intros [= <-];
                repeat first [left; reflexivity | right]
               |clear E]
           end.
    discriminate.
  - simpl. intros [H|[H|[H|[H|[]]]]]; injection H as <- <-; reflexivity.
Qed.

Lemma init_level (box border : Z) (label : str) :
  error_correction (QRCodeGenerator__init__ box border label) =
    match dict_lookup ERROR_LEVELS label with
    | Some e => e
    | None => ERROR_CORRECT_M
    end.
Proof. reflexivity. Qed.

(** C4 (amended).  The table has the four entries Low, Medium, Quartile
    and High.  The constructor maps every label through it and every
    label that is not in it to Medium.  The form controller maps each of
    the four labels its read-only dropdown offers through the same table. *)
Theorem label_to_level (box border : Z) (label : str) (w : World) :
  List.map snd ERROR_LEVELS =
    [ERROR_CORRECT_L; ERROR_CORRECT_M; ERROR_CORRECT_Q; ERROR_CORRECT_H]
  /\ error_dropdown_values = List.map fst ERROR_LEVELS
  /\ (forall e, In (label, e) ERROR_LEVELS ->
        error_correction (QRCodeGenerator__init__ box border label) = e)
  /\ ((forall e, ~ In (label, e) ERROR_LEVELS) ->
        error_correction (QRCodeGenerator__init__ box border label) = ERROR_CORRECT_M)
  /\ (forall e, In (label, e) ERROR_LEVELS ->
        update_settings (with_error_var label w) =
          (inr tt, with_error_correction e
                     (with_box_size (size_var w) (with_error_var label w)))).
Proof.
  split; [reflexivity|]. split; [reflexivity|].
  split; [|split].
  - intros e H. apply lookup_in_table in H. rewrite init_level, H. reflexivity.
  - intros H. rewrite init_level.
    destruct (dict_lookup ERROR_LEVELS label) as [e|] eqn:L; [|reflexivity].
    apply lookup_in_table in L. destruct (H e L).
  - intros e H. apply lookup_in_table in H.
    apply (update_settings_known (with_error_var label w) e H).
Qed.

Lemma attempt_forwards (w : World) (e : ErrorCorrect) :
  truthy (entered w) = true ->
  dict_lookup ERROR_LEVELS (error_var w) = Some e ->
  fst (attempt w) =
    match qr_render e (size_var w) (border (self w)) (entered w)
                    (py "black") (py "white") with
    | inl x => inl x
    | inr _ => inr (Some (fresh (dom (heap w))))
    end.
Proof.
  intros H L. unfold attempt, bind.
  rewrite (update_settings_known w e L).
  assert (truthy (strip (entered w)) = true) as H'
    by (unfold entered in *; rewrite strip_idempotent; exact H).
  clear H.
  set (w1 := with_error_correction e (with_box_size (size_var w) w)).
  destruct (qr_render e (size_var w) (border (self w)) (entered w)
                      (py "black") (py "white")) as [x|img] eqn:R.
  - rewrite (generate_refused w1 _ _ _ x H' R). reflexivity.
  - rewrite (generate_rendered w1 _ _ _ img H' R). reflexivity.
Qed.

(** C5.  Choosing a higher label in Low < Medium < Quartile < High never
    lowers the robustness of what reaches the encoder.  For two labels of
    the table, the second named at least as high as the first, the
    constants the table gives for them stand in the same order (the label
    named Low gives L, Medium M, Quartile Q, High H); the share of
    correctable errors of the second constant is not below that of the
    first, and is above it when the label is strictly higher; each
    constant restores exactly the percentage printed on its label; and for
    one and the same text the constant that reaches the encoder is the one
    of the chosen label: the outcome of the attempt is the encoder's
    outcome at that constant. *)
Theorem higher_level_not_less_robust
    (w : World) (l1 l2 : str) (e1 e2 : ErrorCorrect) (i j : nat) :
  truthy (entered w) = true ->
  dict_lookup ERROR_LEVELS l1 = Some e1 ->
  dict_lookup ERROR_LEVELS l2 = Some e2 ->
  label_rank l1 = Some i ->
  label_rank l2 = Some j ->
  (i <= j)%nat ->
  recovery_percent e1 <= recovery_percent e2
  /\ ((i < j)%nat -> recovery_percent e1 < recovery_percent e2)
  /\ robustness_rank e1 = i
  /\ robustness_rank e2 = j
  /\ recovery_percent e1 = label_percent l1
  /\ recovery_percent e2 = label_percent l2
  /\ fst (attempt (with_error_var l1 w)) =
       match qr_render e1 (size_var w) (border (self w)) (entered w)
                       (py "black") (py "white") with
       | inl x => inl x
       | inr _ => inr (Some (fresh (dom (heap w))))
       end
  /\ fst (attempt (with_error_var l2 w)) =
       match qr_render e2 (size_var w) (border (self w)) (entered w)
                       (py "black") (py "white") with
       | inl x => inl x
       | inr _ => inr (Some (fresh (dom (heap w))))
       end.
Proof.
  intros H L1 L2 R1 R2 Le.
  pose proof (attempt_forwards (with_error_var l1 w) e1 H L1) as F1.
  pose proof (attempt_forwards (with_error_var l2 w) e2 H L2) as F2.
  assert (recovery_percent e1 <= recovery_percent e2
          /\ ((i < j)%nat -> recovery_percent e1 < recovery_percent e2)
          /\ robustness_rank e1 = i /\ robustness_rank e2 = j
          /\ recovery_percent e1 = label_percent l1
          /\ recovery_percent e2 = label_percent l2) as A.
  { clear F1 F2 H w.
    apply lookup_in_table in L1, L2. simpl in L1, L2.
    destruct L1 as [L1|[L1|[L1|[L1|[]]]]]; injection L1 as <- <-;
      vm_compute in R1; injection R1 as <-;
      destruct L2 as [L2|[L2|[L2|[L2|[]]]]]; injection L2 as <- <-;
      vm_compute in R2; injection R2 as <-;
      vm_compute; repeat split; intros; try discriminate; try lia;
      exfalso; lia. }
  destruct A as (A1 & A2 & A3 & A4 & A5 & A6).
  repeat split; assumption.
Qed.

End Levels.

Section Invariant.
Context {ext : External}.

(** ** The stored image along a trace *)

Lemma attempt_failed_frame (w w1 : World) (e : Exception) :
  attempt w = (inl e, w1) ->
  last_generated_image (self w1) = last_generated_image (self w).
Proof.
  unfold attempt, bind. intros A.
  destruct (update_settings_frame w) as (F & _).
  destruct (update_settings w) as [[e0|[]] w0]; simpl in F.
  - injection A as _ <-. exact F.
  - destruct (generate_cases w0 (entered w) (py "black") (py "white"))
      as [[x G]|(img & _ & _ & G)]; rewrite G in A; [|discriminate].
    injection A as _ <-. exact F.
Qed.

(** One call: the stored image is what [generate] returned if it ran and
    succeeded, and what it was otherwise. *)
Lemma after_image (c : Call) (w : World) :
  last_generated_image (self (after c w)) =
    match generated c w with
    | Some r => Some r
    | None => last_generated_image (self w)
    end.
Proof.
  destruct c as [d f b|p|s|l|n| |p]; cbn [after generated]; try reflexivity.
  - destruct (generate_cases w d f b) as [[e G]|(img & _ & _ & G)];
      rewrite G; reflexivity.
  - destruct (save_frame w p) as [fs F]. rewrite F. reflexivity.
  - destruct (truthy (entered w)) eqn:H.
    + destruct (attempt w) as [[e|v] w1] eqn:A.
      * rewrite (on_generate_failed w w1 e H A). simpl.
        apply (attempt_failed_frame w w1 e A).
      * rewrite (on_generate_shown w w1 v H A). cbn [snd]. rewrite display_self.
        destruct (attempt_ok w w1 v A) as (r & img & -> & S & _). exact S.
    + rewrite (on_generate_empty w H). reflexivity.
  - destruct (on_save_frame w p) as (F & _). rewrite F. reflexivity.
Qed.

Lemma after_keeps (c : Call) (w : World) :
  last_generated_image (self w) <> None ->
  last_generated_image (self (after c w)) <> None.
Proof.
  intros H. rewrite after_image. destruct (generated c w); congruence.
Qed.

Lemma run_keeps (cs : list Call) (w : World) :
  last_generated_image (self w) <> None ->
  last_generated_image (self (run cs w)) <> None.
Proof.
  revert w. induction cs as [|c cs IH]; intros w H; [exact H|].
  change (run (c :: cs) w) with (run cs (after c w)).
  apply IH, after_keeps, H.
Qed.

Lemma run_latest (cs : list Call) (w : World) :
  last_generated_image (self (run cs w)) =
    latest cs w (last_generated_image (self w)).
Proof.
  revert w. induction cs as [|c cs IH]; intros w; [reflexivity|].
  change (run (c :: cs) w) with (run cs (after c w)).
  cbn [latest]. rewrite IH, after_image. reflexivity.
Qed.

(** C9.  The stored image is [None] when the application starts; after
    any sequence of calls (the two methods called directly, edits of the
    form, clicks on both buttons) it is the value returned by the most
    recent successful [generate], [None] if there was none; and once it is
    not [None] no further call makes it [None] again. *)
Theorem stored_image_invariant (fs : Files) (cs more : list Call) :
  last_generated_image (self (QRCodeApp__init__ fs)) = None
  /\ last_generated_image (self (run cs (QRCodeApp__init__ fs)))
     = latest cs (QRCodeApp__init__ fs) None
  /\ (last_generated_image (self (run cs (QRCodeApp__init__ fs))) <> None ->
      last_generated_image (self (run (cs ++ more) (QRCodeApp__init__ fs))) <> None).
Proof.
  split; [reflexivity|]. split; [apply run_latest|].
  intros H. unfold run. rewrite fold_left_app. apply run_keeps, H.
Qed.

End Invariant.

(** * The program on concrete inputs *)

Import Standin Runs.

Example strip_hello : strip (py "  hello world ") = py "hello world".
Proof. reflexivity. Qed.

Example strip_tabs : strip [9%N; 32%N; 10%N; 160%N; 12288%N] = [].
Proof. reflexivity. Qed.

Example percent_of_low : label_percent (py "Low (7%)") = 7.
Proof. reflexivity. Qed.

Example rank_of_quartile : label_rank (py "Quartile (25%)") = Some 2%nat.
Proof. reflexivity. Qed.

Example rank_of_other : label_rank (py "Ultra (50%)") = None.
Proof. reflexivity. Qed.

Example labels_state_the_recovery (e : ErrorCorrect) :
  correctable_percent e = recovery_percent e.
Proof. destruct e; reflexivity. Qed.

Example percents :
  List.map correctable_percent
      [ERROR_CORRECT_L; ERROR_CORRECT_M; ERROR_CORRECT_Q; ERROR_CORRECT_H]
    = [7; 15; 25; 30].
Proof. reflexivity. Qed.

Lemma generate_succeeds_when_encoder_accepts_witness :
  strip (py "hello world") <> [] /\
  exists r w',
    generate (py "hello world") black white started = (inr (Some r), w') /\
    heap w' !! r = Some hello_picture /\
    last_generated_image (self w') = Some r.
Proof.
  assert (strip (py "hello world") <> []) as H by (vm_compute; discriminate).
  split; [exact H|].
  exact (generate_succeeds_when_encoder_accepts started (py "hello world") black white H).
Defined.

(** C1 as stated fails: a text of 8000 letters is non-empty after
    trimming, the level is one of the table and the box size lies in
    [5, 20], yet the encoder has no symbol large enough and [generate]
    raises, at every one of the four levels. *)
Lemma generate_overflow_counterexample :
  strip long_text <> [] /\
  5 <= box_size (self started) <= 20 /\
  Forall (fun e =>
            In e (List.map snd ERROR_LEVELS) /\
            fst (generate long_text black white (with_error_correction e started))
              = inl (LibraryError (py "DataOverflowError") []))
         [ERROR_CORRECT_L; ERROR_CORRECT_M; ERROR_CORRECT_Q; ERROR_CORRECT_H].
Proof.
  assert (truthy (strip long_text) = true) as T by (vm_compute; reflexivity).
  assert (forall e, render e 10 4 long_text black white
                    = inl (LibraryError (py "DataOverflowError") [])) as B
    by (intros []; vm_compute; reflexivity).
  assert (forall e,
            fst (generate long_text black white (with_error_correction e started))
              = inl (LibraryError (py "DataOverflowError") [])) as G.
  { intros e.
    rewrite (generate_refused (with_error_correction e started) long_text black white
               (LibraryError (py "DataOverflowError") []) T (B e)).
    reflexivity. }
  split; [intros E; rewrite E in T; clear E; discriminate T|].
  split; [split; [apply Z.leb_le | apply Z.leb_le]; reflexivity|].
  repeat (constructor; [split; [cbn; tauto | apply G]|]).
  constructor.
Qed.

Lemma generate_rejects_blank_witness :
  forallb isspace (py "   ") = true /\
  generate (py "   ") black white (snd (_on_generate hello)) =
    (inl (ValueError (py "Please enter text or URL to generate QR code")),
     snd (_on_generate hello)) /\
  last_generated_image
    (self (snd (generate (py "   ") black white (snd (_on_generate hello)))))
    = last_generated_image (self (snd (_on_generate hello))).
Proof.
  assert (forallb isspace (py "   ") = true) as H by reflexivity.
  split; [exact H|].
  exact (generate_rejects_blank (snd (_on_generate hello)) (py "   ") black white H).
Defined.

Lemma save_before_generate_witness :
  last_generated_image (self started) = None /\
  save (py "qr.png") started =
    (inl (ValueError (py "No QR code generated yet")), started) /\
  files (snd (_on_save (py "qr.png") started)) = files started.
Proof.
  assert (last_generated_image (self started) = None) as H by reflexivity.
  split; [exact H|].
  destruct (save_before_generate started (py "qr.png") (py "qr.png") H)
    as (S & _ & _ & F).
  split; [exact S | exact F].
Defined.

Lemma label_to_level_witness :
  error_correction (QRCodeGenerator__init__ 10 4 (py "High (30%)")) = ERROR_CORRECT_H /\
  error_correction (QRCodeGenerator__init__ 10 4 (py "Ultra")) = ERROR_CORRECT_M /\
  fst (update_settings (with_error_var (py "Quartile (25%)") hello)) = inr tt.
Proof.
  destruct (label_to_level 10 4 (py "High (30%)") hello) as (_ & _ & A & _).
  destruct (label_to_level 10 4 (py "Ultra") hello) as (_ & _ & _ & B & _).
  destruct (label_to_level 10 4 (py "Quartile (25%)") hello) as (_ & _ & _ & _ & C).
  split; [apply A; simpl; tauto|].
  split.
  - apply B. intros e H. simpl in H.
    destruct H as [H|[H|[H|[H|[]]]]]; vm_compute in H; discriminate.
  - rewrite (C ERROR_CORRECT_Q); [reflexivity | simpl; tauto].
Defined.

(** C4 as stated fails for the form controller: with High selected and
    then a label outside the table in the variable, the lookup raises
    [KeyError]; the level stays High instead of becoming Medium, and the
    click ends in the error report. *)
Lemma unknown_label_counterexample :
  let w := run [type_text (py "hello"); choose_level (py "High (30%)");
                click_generate; choose_level (py "Ultra")] started in
  dict_lookup ERROR_LEVELS (error_var w) = None /\
  fst (update_settings w) = inl (KeyError (py "Ultra")) /\
  error_correction (self (after click_generate w)) = ERROR_CORRECT_H /\
  dict_get ERROR_LEVELS (error_var w) ERROR_CORRECT_M = ERROR_CORRECT_M /\
  status_var (after click_generate w) = py "Error generating QR code".
Proof. vm_compute. repeat split; reflexivity. Qed.

Lemma higher_level_not_less_robust_witness :
  truthy (entered hello) = true /\
  label_rank (py "Low (7%)") = Some 0%nat /\
  label_rank (py "High (30%)") = Some 3%nat /\
  recovery_percent ERROR_CORRECT_L < recovery_percent ERROR_CORRECT_H /\
  fst (attempt (with_error_var (py "High (30%)") hello)) = inr (Some 1%positive).
Proof.
  assert (truthy (entered hello) = true) as H by reflexivity.
  assert (dict_lookup ERROR_LEVELS (py "Low (7%)") = Some ERROR_CORRECT_L) as L1
    by reflexivity.
  assert (dict_lookup ERROR_LEVELS (py "High (30%)") = Some ERROR_CORRECT_H) as L2
    by reflexivity.
  assert (label_rank (py "Low (7%)") = Some 0%nat) as R1 by reflexivity.
  assert (label_rank (py "High (30%)") = Some 3%nat) as R2 by reflexivity.
  assert (0 <= 3)%nat as Le by lia.
  destruct (higher_level_not_less_robust hello _ _ _ _ _ _ H L1 L2 R1 R2 Le)
    as (_ & P & _ & _ & _ & _ & _ & F).
  split; [exact H|]. split; [exact R1|]. split; [exact R2|].
  split; [apply P; lia|].
  rewrite F. vm_compute. reflexivity.
Defined.

(** The world right after [generate] on the typed text. *)
Lemma generate_hello :
  generate (py "hello world") black white started =
    (inr (Some 1%positive), stored hello_picture started).
Proof.
  apply (generate_rendered started (py "hello world") black white hello_picture);
    reflexivity.
Defined.

Lemma preview_keeps_stored_image_witness :
  generate (py "hello world") black white started =
    (inr (Some 1%positive), stored hello_picture started) /\
  last_generated_image
    (self (snd (display (Some 1%positive) (py "hello world")
                        (stored hello_picture started)))) = Some 1%positive /\
  heap (snd (display (Some 1%positive) (py "hello world")
                     (stored hello_picture started))) !! 1%positive
    = Some hello_picture /\
  files (snd (save (py "qr.png")
                   (snd (display (Some 1%positive) (py "hello world")
                                 (stored hello_picture started)))))
    = {[ py "qr.png" := hello_picture ]}.
Proof.
  split; [exact generate_hello|].
  destruct (preview_keeps_stored_image started (stored hello_picture started)
              (py "hello world") black white (py "hello world")
              (Some 1%positive) generate_hello)
    as (r & img & E & R & _ & S & L & _ & W).
  injection E as <-.
  assert (img = hello_picture) as -> by (vm_compute in R; injection R as <-; reflexivity).
  split; [exact S|]. split; [exact L|].
  destruct (W (py "qr.png")) as (_ & F & _). rewrite F. reflexivity.
Defined.

Lemma generate_stores_and_save_reads_witness :
  generate (py "hello world") black white started =
    (inr (Some 1%positive), stored hello_picture started) /\
  files (snd (save (py "qr.png") (stored hello_picture started)))
    = {[ py "qr.png" := hello_picture ]} /\
  last_generated_image (self (snd (save (py "qr.png") (stored hello_picture started))))
    = Some 1%positive /\
  last_generated_image (self (snd (save (py "qr") (stored hello_picture started))))
    = Some 1%positive.
Proof.
  split; [exact generate_hello|].
  destruct (generate_stores_and_save_reads started (stored hello_picture started)
              (py "hello world") black white (Some 1%positive) generate_hello)
    as ((r & img & R & S & _ & _ & W) & K).
  assert (img = hello_picture) as -> by (vm_compute in R; injection R as <-; reflexivity).
  split; [rewrite (W (py "qr.png")); reflexivity|].
  split.
  - rewrite (proj1 (K (stored hello_picture started) (py "qr.png"))). reflexivity.
  - rewrite (proj1 (K (stored hello_picture started) (py "qr"))). reflexivity.
Defined.

Lemma attempt_forty :
  attempt forty = (inr (Some 1%positive), snd (attempt forty)).
Proof. vm_compute. reflexivity. Defined.

Lemma status_shows_first_30_witness :
  truthy (entered forty) = true /\
  attempt forty = (inr (Some 1%positive), snd (attempt forty)) /\
  status_var (snd (_on_generate forty)) =
    py "Generated QR code for: 0123456789abcdefghijABCDEFGHIJ...".
Proof.
  assert (truthy (entered forty) = true) as H by reflexivity.
  split; [exact H|]. split; [exact attempt_forty|].
  destruct (status_shows_first_30 forty (snd (attempt forty)) (Some 1%positive)
              H attempt_forty) as (S & _).
  rewrite S. reflexivity.
Defined.

Lemma stored_image_invariant_witness :
  let cs := [type_text (py "hello world"); click_save (py "early.png");
             click_generate; call_generate (py "   ") black white;
             call_save (py "qr")] in
  last_generated_image (self (run cs started)) = Some 1%positive /\
  latest cs started None = Some 1%positive /\
  last_generated_image
    (self (run (cs ++ [type_text []; click_generate; click_save (py "qr.png")])
               started)) <> None.
Proof.
  intros cs.
  destruct (stored_image_invariant (ext := lib) (∅ : gmap str Picture) cs
              [type_text []; click_generate; click_save (py "qr.png")])
    as (_ & L & K).
  assert (latest cs started None = Some 1%positive) as E by (vm_compute; reflexivity).
  assert (last_generated_image (self (run cs started)) = Some 1%positive) as S
    by (rewrite <- E; exact L).
  split; [exact S|]. split; [exact E|].
  apply K. intros N. discriminate (eq_trans (eq_sym S) N).
Defined.

Lemma generate_returns_stored_witness :
  generate (py "hello world") black white started =
    (inr (Some 1%positive), stored hello_picture started) /\
  last_generated_image (self (stored hello_picture started)) = Some 1%positive.
Proof.
  split; [exact generate_hello|].
  exact (proj1 (generate_returns_stored started (stored hello_picture started)
                  (py "hello world") black white (Some 1%positive) generate_hello)).
Defined.

(** * Beyond the claims: the rest of the handlers *)

(** ** Trimming, as the form uses it *)

Lemma lstrip_app_nonblank (a b : str) :
  forallb isspace a = false -> lstrip (a ++ b) = lstrip a ++ b.
Proof.
  induction a as [|c a IH]; simpl; [discriminate|].
  destruct (isspace c); [exact IH | reflexivity].
Qed.

Lemma rstrip_snoc_space (a : str) (c : N) :
  isspace c = true -> rstrip (a ++ [c]) = rstrip a.
Proof.
  intros H. unfold rstrip. rewrite rev_app_distr. simpl. rewrite H. reflexivity.
Qed.

Lemma strip_snoc_space (s : str) (c : N) :
  isspace c = true -> strip (s ++ [c]) = strip s.
Proof.
  intros H. destruct (forallb isspace s) eqn:B.
  - rewrite (strip_blank s B). apply strip_blank.
    rewrite forallb_app, B. simpl. rewrite H. reflexivity.
  - unfold strip. rewrite (lstrip_app_nonblank s [c] B).
    apply rstrip_snoc_space, H.
Qed.

Lemma forallb_rev (f : N -> bool) (s : str) :
  forallb f s = true -> forallb f (rev s) = true.
Proof.
  rewrite !forallb_forall. intros H x I. apply H, in_rev, I.
Qed.

Lemma lstrip_split (s : str) :
  exists pre, s = pre ++ lstrip s /\ forallb isspace pre = true.
Proof.
  induction s as [|c t (pre & E & B)]; [exists []; split; reflexivity|].
  simpl. destruct (isspace c) eqn:H.
  - exists (c :: pre). simpl. rewrite H, B. split; [f_equal; exact E | reflexivity].
  - exists []. split; reflexivity.
Qed.

Lemma rstrip_split (s : str) :
  exists post, s = rstrip s ++ post /\ forallb isspace post = true.
Proof.
  destruct (lstrip_split (rev s)) as (pre & E & B).
  exists (rev pre). split; [|apply forallb_rev, B].
  unfold rstrip. rewrite <- rev_app_distr, <- E, rev_involutive. reflexivity.
Qed.

Lemma strip_last (s t : str) (d : N) : strip s = t ++ [d] -> isspace d = false.
Proof.
  unfold strip, rstrip. intros E.
  apply (f_equal (@rev N)) in E. rewrite rev_involutive, rev_app_distr in E.
  simpl in E. apply (lstrip_head _ _ _ E).
Qed.

Lemma strip_first (s t : str) (c : N) : strip s = c :: t -> isspace c = false.
Proof.
  unfold strip. destruct (lstrip s) as [|a u] eqn:L; [discriminate|].
  pose proof (lstrip_head _ _ _ L) as H.
  rewrite (rstrip_cons a u H). intros [= <- _]. exact H.
Qed.

Section Extras.
Context {ext : External}.

#[local] Arguments dict_lookup {V} d k : simpl never.

Lemma entered_trimmed (w : World) : entered w = strip (text_input w).
Proof. unfold entered. apply strip_snoc_space. reflexivity. Qed.

(** X1.  Tk's closing newline never reaches the encoder: the text that
    [_on_generate] works with is the trimmed content of the widget, and it
    is blank exactly when the content is whitespace only. *)
Theorem entered_is_trimmed_content (w : World) :
  entered w = strip (text_input w)
  /\ truthy (entered w) = negb (forallb isspace (text_input w)).
Proof.
  split; [apply entered_trimmed|]. rewrite entered_trimmed. apply truthy_strip.
Qed.

(** X2.  Trimming removes whitespace at the two ends and nothing else:
    the widget's content is whitespace, the text handed on, whitespace,
    and the text handed on neither starts nor ends with whitespace. *)
Theorem entered_is_interior (w : World) :
  exists pre post,
    text_input w = pre ++ entered w ++ post /\
    forallb isspace pre = true /\
    forallb isspace post = true /\
    (forall c t, entered w = c :: t -> isspace c = false) /\
    (forall t d, entered w = t ++ [d] -> isspace d = false).
Proof.
  rewrite entered_trimmed.
  destruct (lstrip_split (text_input w)) as (pre & E & B).
  destruct (rstrip_split (lstrip (text_input w))) as (post & E' & B').
  exists pre, post. fold (strip (text_input w)) in E'.
  split; [rewrite <- E'; exact E|]. split; [exact B|]. split; [exact B'|].
  split.
  - intros c t. apply strip_first.
  - intros t d. apply strip_last.
Qed.

End Extras.

Section Worlds.
Context {ext : External}.

#[local] Arguments dict_lookup {V} d k : simpl never.

(** ** The worlds the handlers leave, case by case *)

Lemma display_shown (w : World) (r : ref) (img : Bitmap) (data : str) :
  heap w !! r = Some img ->
  display (Some r) data w =
    (inr tt, shown (preview_heap img (heap w)) (preview_ref img (heap w)) data w).
Proof.
  intros H. unfold display, bind, deref, alloc, modify, get, raise.
  rewrite H. simpl. rewrite lookup_insert_eq. reflexivity.
Qed.

Lemma entered_twice (w : World) :
  truthy (entered w) = true -> truthy (strip (entered w)) = true.
Proof. unfold entered. rewrite strip_idempotent. auto. Qed.

(** The three ways the attempt can end. *)
Lemma attempt_cases (w : World) :
  truthy (entered w) = true ->
  (dict_lookup ERROR_LEVELS (error_var w) = None /\
   attempt w = (inl (KeyError (error_var w)), with_box_size (size_var w) w))
  \/ (exists level e,
        dict_lookup ERROR_LEVELS (error_var w) = Some level /\
        qr_render level (size_var w) (border (self w)) (entered w)
                  (py "black") (py "white") = inl e /\
        attempt w = (inl e, settled level w))
  \/ (exists level img,
        dict_lookup ERROR_LEVELS (error_var w) = Some level /\
        qr_render level (size_var w) (border (self w)) (entered w)
                  (py "black") (py "white") = inr img /\
        attempt w = (inr (Some (fresh (dom (heap w)))), stored img (settled level w))).
Proof.
  intros H. apply entered_twice in H. unfold attempt, bind.
  destruct (dict_lookup ERROR_LEVELS (error_var w)) as [level|] eqn:L.
  - rewrite (update_settings_known w level L). fold (settled level w). right.
    destruct (qr_render level (size_var w) (border (self w)) (entered w)
                        (py "black") (py "white")) as [e|img] eqn:R.
    + left. exists level, e. split; [reflexivity|]. split; [exact R|].
      apply (generate_refused (settled level w) _ _ _ e H R).
    + right. exists level, img. split; [reflexivity|]. split; [exact R|].
      apply (generate_rendered (settled level w) _ _ _ img H R).
  - rewrite (update_settings_unknown w L). left. split; reflexivity.
Qed.

(** Every world [_on_generate] can leave. *)
Lemma on_generate_world (w : World) :
  fst (_on_generate w) = inr tt /\
  ((truthy (entered w) = false /\
    snd (_on_generate w) =
      with_screen (screen w ++ [showwarning (py "Warning")
                                  (py "Please enter text or URL")]) w)
   \/ (truthy (entered w) = true /\
       dict_lookup ERROR_LEVELS (error_var w) = None /\
       snd (_on_generate w) =
         reported (KeyError (error_var w)) (with_box_size (size_var w) w))
   \/ (exists level e,
         truthy (entered w) = true /\
         dict_lookup ERROR_LEVELS (error_var w) = Some level /\
         qr_render level (size_var w) (border (self w)) (entered w)
                   (py "black") (py "white") = inl e /\
         snd (_on_generate w) = reported e (settled level w))
   \/ (exists level img,
         truthy (entered w) = true /\
         dict_lookup ERROR_LEVELS (error_var w) = Some level /\
         qr_render level (size_var w) (border (self w)) (entered w)
                   (py "black") (py "white") = inr img /\
         snd (_on_generate w) =
           shown (preview_heap img (heap (stored img (settled level w))))
                 (preview_ref img (heap (stored img (settled level w))))
                 (entered w) (stored img (settled level w)))).
Proof.
  destruct (truthy (entered w)) eqn:H.
  - destruct (attempt_cases w H) as [(L & A)|[(level & e & L & R & A)|(level & img & L & R & A)]].
    + rewrite (on_generate_failed w _ _ H A). split; [reflexivity|].
      right; left. auto.
    + rewrite (on_generate_failed w _ _ H A). split; [reflexivity|].
      right; right; left. exists level, e. auto.
    + rewrite (on_generate_shown w _ _ H A).
      rewrite (display_shown (stored img (settled level w)) (fresh (dom (heap w)))
                 img (entered w) (stored_lookup img (settled level w))).
      split; [reflexivity|].
      right; right; right. exists level, img. auto.
  - rewrite (on_generate_empty w H). split; [reflexivity|]. left. auto.
Qed.

(** The dialogs on screen do not matter to [save]. *)
Lemma save_with_screen (w : World) (filepath : str) (s : list UIEvent) :
  save filepath (with_screen s w) =
    (fst (save filepath w), with_screen s (snd (save filepath w))).
Proof.
  unfold save, bind, get, deref. simpl.
  destruct (last_generated_image (self w)) as [r|]; [|reflexivity].
  change (heap (with_screen s w)) with (heap w).
  destruct (heap w !! r) as [img|]; [|reflexivity].
  change (files (with_screen s w)) with (files w).
  destruct (pil_save img filepath (files w)) as [res fs]. reflexivity.
Qed.

(** Every world [_on_save] can leave. *)
Lemma on_save_world (w : World) (chosen : str) :
  (last_generated_image (self w) = None /\
   snd (_on_save chosen w) =
     with_screen (screen w ++ [showwarning (py "Warning")
                                 (py "Generate a QR code first before saving")]) w)
  \/ (last_generated_image (self w) <> None /\ truthy chosen = false /\
      snd (_on_save chosen w) =
        with_screen (screen w ++ [asksaveasfilename chosen]) w)
  \/ (last_generated_image (self w) <> None /\ truthy chosen = true /\
      fst (save chosen w) = inr tt /\
      snd (_on_save chosen w) = saved chosen (files (snd (save chosen w))) w)
  \/ (exists e,
        last_generated_image (self w) <> None /\ truthy chosen = true /\
        fst (save chosen w) = inl e /\
        snd (_on_save chosen w) = not_saved chosen e (files (snd (save chosen w))) w).
Proof.
  unfold _on_save, bind, get.
  destruct (last_generated_image (self w)) as [r|] eqn:L; [|left; auto].
  right. unfold show, modify. cbn [fst snd].
  destruct (truthy chosen) eqn:T; [|left; split; [discriminate|auto]].
  right. unfold try_except, bind. rewrite save_with_screen.
  destruct (save_frame w chosen) as [fs F].
  destruct (save chosen w) as [[e|[]] w2]; cbn [fst snd] in *; subst w2.
  - right. exists e. split; [discriminate|]. split; [reflexivity|].
    split; [reflexivity|]. unfold not_saved. simpl. rewrite <- app_assoc. reflexivity.
  - left. split; [discriminate|]. split; [reflexivity|]. split; [reflexivity|].
    unfold saved. simpl. rewrite <- app_assoc. reflexivity.
Qed.

End Worlds.

Section Paths.
Context {ext : External}.

#[local] Arguments dict_lookup {V} d k : simpl never.

(** ** Every call follows one of the listed paths *)

Lemma after_outcome (c : Call) (w : World) : outcome w c (after c w).
Proof.
  destruct c as [d f b|p|s|l|n| |p]; cbn [after].
  - destruct (generate_cases w d f b) as [[e G]|(img & R & _ & G)]; rewrite G.
    + apply generate_raised.
    + apply generate_stored, R.
  - destruct (save_frame w p) as [fs F]. rewrite F. apply save_ran.
  - apply text_typed.
  - apply level_chosen.
  - apply slider_moved.
  - destruct (on_generate_world w)
      as (_ & [(H & E)|[(H & L & E)|[(level & e & H & L & R & E)
                                   |(level & img & H & L & R & E)]]]);
      rewrite E.
    + apply click_blank, H.
    + apply click_unknown_label; assumption.
    + apply click_refused; assumption.
    + apply click_shown; assumption.
  - destruct (on_save_world w p)
      as [(L & E)|[(L & T & E)|[(L & T & _ & E)|(e & L & T & _ & E)]]];
      rewrite E.
    + apply save_warned, L.
    + apply save_cancelled; assumption.
    + apply save_done, L.
    + apply save_failed, L.
Qed.

(** A property kept by every call is kept by every trace. *)
Lemma run_invariant (P : World -> Prop) (ok : Call -> bool) :
  (forall c w, ok c = true -> P w -> P (after c w)) ->
  forall cs w, Forall (fun c => ok c = true) cs -> P w -> P (run cs w).
Proof.
  intros Step cs. induction cs as [|c cs IH]; intros w F H; [exact H|].
  change (run (c :: cs) w) with (run cs (after c w)).
  inversion F as [|? ? Hc Hcs]; subst.
  apply IH; [exact Hcs|]. apply Step; assumption.
Qed.

Lemma preview_heap_keeps (h : gmap ref Bitmap) (img b : Bitmap) (r : ref) :
  h !! r = Some b -> preview_heap img h !! r = Some b.
Proof.
  intros H. unfold preview_heap, resized_in.
  apply insert_fresh_keeps, insert_fresh_keeps, H.
Qed.

Lemma after_heap (c : Call) (w : World) (r : ref) (b : Bitmap) :
  heap w !! r = Some b -> heap (after c w) !! r = Some b.
Proof.
  intros H. destruct (after_outcome c w); try exact H.
  - apply stored_keeps, H.
  - cbn [shown heap with_status_var with_qr_label with_photo with_heap].
    apply preview_heap_keeps, (stored_keeps img (settled level w)), H.
Qed.

End Paths.

Section Clicks.
Context {ext : External}.

#[local] Arguments dict_lookup {V} d k : simpl never.

(** ** The Generate button *)

(** X3.  A click on Generate while the text field holds nothing but
    whitespace shows the warning and does nothing else: the slider and the
    dropdown are not read into the generator, the status line, the preview
    and the stored image stay as they are. *)
Theorem blank_click_changes_nothing (w : World) :
  forallb isspace (text_input w) = true ->
  _on_generate w =
    (inr tt,
     with_screen (screen w ++ [showwarning (py "Warning")
                                 (py "Please enter text or URL")]) w).
Proof.
  intros H. apply on_generate_empty.
  rewrite entered_trimmed, truthy_strip, H. reflexivity.
Qed.

Lemma attempt_error_origin (w w1 : World) (e : Exception) :
  truthy (entered w) = true ->
  attempt w = (inl e, w1) ->
  (dict_lookup ERROR_LEVELS (error_var w) = None /\ e = KeyError (error_var w))
  \/ exists level,
       dict_lookup ERROR_LEVELS (error_var w) = Some level /\
       qr_render level (size_var w) (border (self w)) (entered w)
                 (py "black") (py "white") = inl e.
Proof.
  intros H A.
  destruct (attempt_cases w H)
    as [(L & A')|[(level & e' & L & R & A')|(level & img & L & R & A')]];
    rewrite A' in A; [| |discriminate].
  - injection A as <- _. left. auto.
  - injection A as <- _. right. exists level. auto.
Qed.

(** X4.  When the attempt behind a click fails, the exception is either
    the [KeyError] of a label that is not in the table or the exception the
    encoder raised for exactly the settings of the form; the blank-text
    guard of [generate] never fires on this path, the text being trimmed
    and non-empty already. *)
Theorem click_error_origin (w w1 : World) (e : Exception) :
  truthy (entered w) = true ->
  attempt w = (inl e, w1) ->
  (dict_lookup ERROR_LEVELS (error_var w) = None /\ e = KeyError (error_var w))
  \/ exists level,
       dict_lookup ERROR_LEVELS (error_var w) = Some level /\
       qr_render level (size_var w) (border (self w)) (entered w)
                 (py "black") (py "white") = inl e.
Proof. apply attempt_error_origin. Qed.

(** X5.  A click whose attempt fails reports the error and keeps what was
    there: the stored image, every image object, the preview and the files
    are unchanged, the error dialog carries [str(e)] and the status line
    says so.  The slider's value has nevertheless been written to
    [box_size], the assignment coming before the failure. *)
Theorem failed_click_keeps_image_and_preview (w w1 : World) (e : Exception) :
  truthy (entered w) = true ->
  attempt w = (inl e, w1) ->
  fst (_on_generate w) = inr tt /\
  last_generated_image (self (snd (_on_generate w))) = last_generated_image (self w) /\
  heap (snd (_on_generate w)) = heap w /\
  photo (snd (_on_generate w)) = photo w /\
  qr_label_image (snd (_on_generate w)) = qr_label_image w /\
  qr_label_text (snd (_on_generate w)) = qr_label_text w /\
  files (snd (_on_generate w)) = files w /\
  status_var (snd (_on_generate w)) = py "Error generating QR code" /\
  screen (snd (_on_generate w)) =
    screen w ++ [showerror (py "Error") (str_of_exception e)] /\
  box_size (self (snd (_on_generate w))) = size_var w.
Proof.
  intros H A. rewrite (on_generate_failed w w1 e H A).
  destruct (attempt_cases w H)
    as [(L & A')|[(level & e' & L & R & A')|(level & img & L & R & A')]];
    rewrite A' in A; [| |discriminate];
    injection A as <- <-; simpl; repeat split; reflexivity.
Qed.

(** X6.  A click that succeeds: the generator holds the slider's size and
    the level of the chosen label, the stored image is a new object with
    the encoder's image, the label shows another new object that holds this
    image rescaled to 250 by 250, its text is empty, no dialog appears and
    no file is touched. *)
Theorem successful_click (w : World) (level : ErrorCorrect) (img : Bitmap) :
  truthy (entered w) = true ->
  dict_lookup ERROR_LEVELS (error_var w) = Some level ->
  qr_render level (size_var w) (border (self w)) (entered w)
            (py "black") (py "white") = inr img ->
  self (snd (_on_generate w)) =
    {| box_size := size_var w; border := border (self w);
       error_correction := level;
       last_generated_image := Some (fresh (dom (heap w))) |} /\
  heap (snd (_on_generate w)) !! fresh (dom (heap w)) = Some img /\
  (exists p,
     photo (snd (_on_generate w)) = Some p /\
     qr_label_image (snd (_on_generate w)) = Some p /\
     p <> fresh (dom (heap w)) /\
     heap (snd (_on_generate w)) !! p = Some (pil_resize img 250 250)) /\
  qr_label_text (snd (_on_generate w)) = [] /\
  status_var (snd (_on_generate w)) = generated_status (entered w) /\
  screen (snd (_on_generate w)) = screen w /\
  files (snd (_on_generate w)) = files w.
Proof.
  intros H L R.
  destruct (attempt_cases w H)
    as [(L' & _)|[(level' & e' & L' & R' & _)|(level' & img' & L' & R' & A)]];
    try congruence.
  assert (level' = level) as -> by congruence.
  assert (img' = img) as -> by congruence.
  rewrite (on_generate_shown w _ _ H A).
  rewrite (display_shown (stored img (settled level w)) (fresh (dom (heap w)))
             img (entered w) (stored_lookup img (settled level w))).
  cbn [snd].
  set (h := heap (stored img (settled level w))).
  assert (h !! fresh (dom (heap w)) = Some img) as K
    by apply (stored_lookup img (settled level w)).
  split; [reflexivity|].
  split; [apply preview_heap_keeps, K|].
  split; [|repeat split; reflexivity].
  exists (preview_ref img h).
  split; [reflexivity|]. split; [reflexivity|]. split.
  - intros E.
    assert (resized_in img h !! fresh (dom (heap w)) = Some img) as K'
      by (apply insert_fresh_keeps, K).
    rewrite <- E in K'. unfold preview_ref in K'.
    assert (resized_in img h !! fresh (dom (resized_in img h)) = None) as N
      by (apply not_elem_of_dom, is_fresh).
    congruence.
  - cbn [shown heap with_status_var with_qr_label with_photo with_heap].
    unfold preview_heap, preview_ref. unfold resized_in at 1.
    apply lookup_insert_eq.
Qed.

(** X7.  [_on_generate] never lets an exception escape and never edits
    the form or the disk: whatever the world, it returns normally and
    leaves the text, the dropdown variable, the slider variable, the
    border and the files as they were. *)
Theorem generate_click_is_contained (w : World) :
  fst (_on_generate w) = inr tt /\
  text_input (snd (_on_generate w)) = text_input w /\
  error_var (snd (_on_generate w)) = error_var w /\
  size_var (snd (_on_generate w)) = size_var w /\
  border (self (snd (_on_generate w))) = border (self w) /\
  files (snd (_on_generate w)) = files w.
Proof.
  destruct (on_generate_world w)
    as (F & [(H & E)|[(H & L & E)|[(level & e & H & L & R & E)
                                 |(level & img & H & L & R & E)]]]);
    rewrite E; split; try exact F; repeat split; reflexivity.
Qed.

(** X17.  The status line after a click on Generate: untouched when the
    text is blank, the error note when the attempt failed, and the
    generated note with the first 30 characters otherwise. *)
Theorem status_after_click (w : World) :
  status_var (snd (_on_generate w)) =
    if truthy (entered w) then
      match fst (attempt w) with
      | inl _ => py "Error generating QR code"
      | inr _ => generated_status (entered w)
      end
    else status_var w.
Proof.
  destruct (truthy (entered w)) eqn:H.
  - destruct (attempt w) as [[e|v] w1] eqn:A; cbn [fst].
    + rewrite (on_generate_failed w w1 e H A). reflexivity.
    + destruct (attempt_ok w w1 v A) as (r & img & -> & _ & K & _).
      rewrite (on_generate_shown w w1 _ H A).
      rewrite (display_shown w1 r img (entered w) K). reflexivity.
  - rewrite (on_generate_empty w H). reflexivity.
Qed.

(** X19.  The form starts in step with the generator: for whatever text
    is typed first, with slider and dropdown untouched, the click runs the
    encoder with the constructor's defaults (Medium, box size 10, border
    4, black on white) on the trimmed text, and its outcome is the
    encoder's. *)
Theorem first_click_uses_defaults (fs : Files) (s : str) :
  forallb isspace s = false ->
  fst (attempt (with_text_input s (QRCodeApp__init__ fs))) =
    match qr_render ERROR_CORRECT_M 10 4 (strip s) (py "black") (py "white") with
    | inl x => inl x
    | inr _ => inr (Some (fresh (dom (∅ : gmap ref Bitmap))))
    end
  /\ self (snd (update_settings (with_text_input s (QRCodeApp__init__ fs))))
     = self (QRCodeApp__init__ fs).
Proof.
  intros B.
  assert (entered (with_text_input s (QRCodeApp__init__ fs)) = strip s) as E
    by apply entered_trimmed.
  assert (truthy (entered (with_text_input s (QRCodeApp__init__ fs))) = true) as H
    by (rewrite E, truthy_strip, B; reflexivity).
  split; [|reflexivity].
  destruct (attempt_cases _ H)
    as [(L & _)|[(level & e & L & R & A)|(level & img & L & R & A)]];
    [discriminate L| |];
    injection L as <-; rewrite A; rewrite E in R;
    cbn [size_var border self with_text_input QRCodeApp__init__
         QRCodeGenerator__init__] in R;
    rewrite R; reflexivity.
Qed.

(** ** The Save button *)

(** X8.  With an image stored, the Save button does one of three things.
    An empty answer to the file dialog (cancelled) changes nothing.
    Otherwise the stored image goes to the image writer with the chosen
    path: on success the status line names the path and an information
    box confirms it; on failure an error box carries the writer's message
    and the status line keeps its text. *)
Theorem save_click_outcomes (w : World) (chosen : str) (r : ref) (img : Bitmap) :
  last_generated_image (self w) = Some r ->
  heap w !! r = Some img ->
  snd (_on_save chosen w) =
    if truthy chosen then
      match fst (pil_save img chosen (files w)) with
      | inr _ => saved chosen (snd (pil_save img chosen (files w))) w
      | inl e => not_saved chosen e (snd (pil_save img chosen (files w))) w
      end
    else with_screen (screen w ++ [asksaveasfilename chosen]) w.
Proof.
  intros L K. pose proof (save_some w chosen r img L K) as S.
  destruct (on_save_world w chosen)
    as [(L' & E)|[(_ & T & E)|[(_ & T & F & E)|(e & _ & T & F & E)]]];
    [congruence| | |]; rewrite E, T; [reflexivity| |];
    rewrite S in F |- *; cbn [fst snd] in *; rewrite F; reflexivity.
Qed.

(** X9.  [_on_save] never lets an exception escape and never touches the
    generator or the image objects; what it does to the files is what
    [save] does with the chosen path, and nothing when the dialog was
    cancelled. *)
Theorem save_click_is_contained (w : World) (chosen : str) :
  fst (_on_save chosen w) = inr tt /\
  self (snd (_on_save chosen w)) = self w /\
  heap (snd (_on_save chosen w)) = heap w /\
  files (snd (_on_save chosen w)) =
    if truthy chosen then files (snd (save chosen w)) else files w.
Proof.
  destruct (on_save_frame w chosen) as (S & H & F).
  split; [exact F|]. split; [exact S|]. split; [exact H|].
  destruct (on_save_world w chosen)
    as [(L & E)|[(_ & T & E)|[(_ & T & _ & E)|(e & _ & T & _ & E)]]];
    rewrite E; try rewrite T; try reflexivity.
  rewrite (save_none w chosen L). destruct (truthy chosen); reflexivity.
Qed.

End Clicks.

Section AlongTraces.
Context {ext : External}.

#[local] Arguments dict_lookup {V} d k : simpl never.

(** ** What holds along every trace *)

(** X10.  Image objects are replaced, never changed in place: whatever
    calls follow, an object that is on the heap stays there with the
    pixels it has. *)
Theorem image_objects_never_change
    (cs : list Call) (w : World) (r : ref) (b : Bitmap) :
  heap w !! r = Some b -> heap (run cs w) !! r = Some b.
Proof.
  revert w. induction cs as [|c cs IH]; intros w H; [exact H|].
  change (run (c :: cs) w) with (run cs (after c w)).
  apply IH, after_heap, H.
Qed.

Lemma after_live (c : Call) (w : World) :
  stored_is_live w -> stored_is_live (after c w).
Proof.
  intros H. destruct (after_outcome c w); try exact H.
  - intros r [= <-]. rewrite stored_lookup. eauto.
  - intros r [= <-].
    cbn [shown heap with_status_var with_qr_label with_photo with_heap].
    exists img. apply preview_heap_keeps.
    apply (stored_lookup img (settled level w)).
Qed.

Lemma run_live (cs : list Call) (w : World) :
  stored_is_live w -> stored_is_live (run cs w).
Proof.
  revert w. induction cs as [|c cs IH]; intros w H; [exact H|].
  change (run (c :: cs) w) with (run cs (after c w)).
  apply IH, after_live, H.
Qed.

(** X11.  After any sequence of calls from the start of the application,
    [save] has exactly two behaviours: with nothing stored it raises the
    [ValueError] and changes nothing; otherwise the stored reference names
    a live image object and [save] hands its pixels to the image writer,
    the outcome being the writer's. *)
Theorem save_after_any_trace (fs : Files) (cs : list Call) (filepath : str) :
  match last_generated_image (self (run cs (QRCodeApp__init__ fs))) with
  | None =>
      save filepath (run cs (QRCodeApp__init__ fs)) =
        (inl (ValueError (py "No QR code generated yet")),
         run cs (QRCodeApp__init__ fs))
  | Some r =>
      exists img,
        heap (run cs (QRCodeApp__init__ fs)) !! r = Some img /\
        save filepath (run cs (QRCodeApp__init__ fs)) =
          (fst (pil_save img filepath (files (run cs (QRCodeApp__init__ fs)))),
           with_files
             (snd (pil_save img filepath (files (run cs (QRCodeApp__init__ fs)))))
             (run cs (QRCodeApp__init__ fs)))
  end.
Proof.
  assert (stored_is_live (run cs (QRCodeApp__init__ fs))) as L
    by (apply run_live; intros r; discriminate).
  destruct (last_generated_image (self (run cs (QRCodeApp__init__ fs))))
    as [r|] eqn:S.
  - destruct (L r S) as [img K]. exists img. split; [exact K|].
    apply (save_some _ filepath r img S K).
  - apply save_none, S.
Qed.

Lemma after_border (c : Call) (w : World) :
  border (self (after c w)) = border (self w).
Proof. destruct (after_outcome c w); reflexivity. Qed.

(** X12.  No call changes the border: along every trace it is the one
    the constructor received, 4 for the application. *)
Theorem border_never_changes (fs : Files) (cs : list Call) (w : World) :
  border (self (run cs w)) = border (self w)
  /\ border (self (run cs (QRCodeApp__init__ fs))) = 4.
Proof.
  assert (forall u, border (self (run cs u)) = border (self u)) as K.
  { induction cs as [|c cs IH]; intros u; [reflexivity|].
    change (run (c :: cs) u) with (run cs (after c u)).
    rewrite IH. apply after_border. }
  split; [apply K | rewrite K; reflexivity].
Qed.

(** X13.  While the slider variable is only moved within the slider's
    range, the box size handed to the encoder stays in the range 5 to 20,
    and so does the variable. *)
Theorem box_size_stays_on_slider (fs : Files) (cs : list Call) :
  Forall (fun c => from_slider c = true) cs ->
  5 <= box_size (self (run cs (QRCodeApp__init__ fs))) <= 20
  /\ 5 <= size_var (run cs (QRCodeApp__init__ fs)) <= 20.
Proof.
  intros F.
  apply (run_invariant
           (fun w => 5 <= box_size (self w) <= 20 /\ 5 <= size_var w <= 20)
           from_slider); [|exact F|simpl; lia].
  intros c w Hc H. destruct (after_outcome c w); simpl; try exact H; try lia.
  simpl in Hc. lia.
Qed.

Lemma dropdown_label_known (l : str) :
  existsb (str_eqb l) error_dropdown_values = true ->
  dict_lookup ERROR_LEVELS l <> None.
Proof.
  unfold error_dropdown_values, dict_keys.
  induction ERROR_LEVELS as [|[k v] d IH]; simpl; [discriminate|].
  unfold dict_lookup; fold (@dict_lookup ErrorCorrect).
  intros H. destruct (str_eqb k l) eqn:E; [discriminate|].
  apply orb_prop in H as [H|H]; [|apply IH, H].
  apply str_eqb_eq in H. subst k.
  assert (str_eqb l l = true) as R by (apply str_eqb_eq; reflexivity).
  congruence.
Qed.

(** X14.  While the dropdown variable is only set to values the dropdown
    offers, the lookup of the level never fails: the label in the variable
    is in the table in every state reached, so a failed attempt behind a
    click is always the encoder's own exception for the form's settings,
    never a [KeyError]. *)
Theorem dropdown_never_key_error
    (fs : Files) (cs : list Call) (w1 : World) (e : Exception) :
  Forall (fun c => from_dropdown c = true) cs ->
  truthy (entered (run cs (QRCodeApp__init__ fs))) = true ->
  attempt (run cs (QRCodeApp__init__ fs)) = (inl e, w1) ->
  exists level,
    dict_lookup ERROR_LEVELS (error_var (run cs (QRCodeApp__init__ fs))) = Some level /\
    qr_render level (size_var (run cs (QRCodeApp__init__ fs)))
              (border (self (run cs (QRCodeApp__init__ fs))))
              (entered (run cs (QRCodeApp__init__ fs)))
              (py "black") (py "white") = inl e.
Proof.
  intros F H A.
  assert (dict_lookup ERROR_LEVELS (error_var (run cs (QRCodeApp__init__ fs))) <> None) as K.
  { apply (run_invariant
             (fun w => dict_lookup ERROR_LEVELS (error_var w) <> None)
             from_dropdown); [|exact F|discriminate].
    intros c w Hc I. destruct (after_outcome c w); try exact I.
    apply dropdown_label_known, Hc. }
  destruct (attempt_error_origin _ w1 e H A) as [(L & _)|R]; [congruence | exact R].
Qed.

(** X15.  Only saving writes: a trace without a call of [save] and
    without a click on Save leaves the files as they were, however often
    images are generated and previewed. *)
Theorem files_change_only_on_save (cs : list Call) (w : World) :
  Forall (fun c => is_save c = false) cs ->
  files (run cs w) = files w.
Proof.
  revert w. induction cs as [|c cs IH]; intros w F; [reflexivity|].
  change (run (c :: cs) w) with (run cs (after c w)).
  inversion F as [|? ? Hc Hcs]; subst.
  rewrite (IH _ Hcs).
  destruct (after_outcome c w); try reflexivity; discriminate.
Qed.

(** X16.  Two successful calls of [generate] in a row: the second image
    replaces the first as the stored one, it is another object, and the
    first object still holds its own image. *)
Theorem second_image_replaces_first
    (w w1 w2 : World) (d1 f1 b1 d2 f2 b2 : str) (v1 v2 : option ref) :
  generate d1 f1 b1 w = (inr v1, w1) ->
  generate d2 f2 b2 w1 = (inr v2, w2) ->
  last_generated_image (self w2) = v2 /\
  v2 <> v1 /\
  exists r1 img1,
    v1 = Some r1 /\
    qr_render (error_correction (self w)) (box_size (self w)) (border (self w))
              d1 f1 b1 = inr img1 /\
    heap w2 !! r1 = Some img1.
Proof.
  intros G1 G2.
  destruct (generate_cases w d1 f1 b1) as [[e G]|(img1 & R1 & _ & G)];
    rewrite G in G1; [discriminate|]. injection G1 as <- <-.
  destruct (generate_cases (stored img1 w) d2 f2 b2) as [[e G']|(img2 & R2 & _ & G')];
    rewrite G' in G2; [discriminate|]. injection G2 as <- <-.
  split; [reflexivity|]. split.
  - intros E.
    apply (f_equal (fun v => match v with
                             | Some r => heap (stored img1 w) !! r
                             | None => None
                             end)) in E.
    change (heap (stored img1 w) !! fresh (dom (heap (stored img1 w)))
            = heap (stored img1 w) !! fresh (dom (heap w))) in E.
    rewrite fresh_unused, stored_lookup in E. discriminate.
  - exists (fresh (dom (heap w))), img1.
    split; [reflexivity|]. split; [exact R1|].
    apply stored_keeps, stored_lookup.
Qed.

(** X18.  The dropdown and the levels correspond one to one: the four
    labels it offers are distinct, each level is reached by a label the
    dropdown offers, and two labels with the same level are the same
    label. *)
Theorem labels_and_levels_one_to_one (l1 l2 : str) (e : ErrorCorrect) :
  NoDup error_dropdown_values
  /\ (exists l, In l error_dropdown_values /\ dict_lookup ERROR_LEVELS l = Some e)
  /\ (dict_lookup ERROR_LEVELS l1 = Some e ->
      dict_lookup ERROR_LEVELS l2 = Some e -> l1 = l2).
Proof.
  split; [|split].
  - apply (bool_decide_unpack _). vm_compute. exact I.
  - destruct e;
      [exists (py "Low (7%)") | exists (py "Medium (15%)")
      |exists (py "Quartile (25%)") | exists (py "High (30%)")];
      (split; [simpl; tauto | reflexivity]).
  - intros H1 H2. apply lookup_in_table in H1, H2. simpl in H1, H2.
    destruct H1 as [H1|[H1|[H1|[H1|[]]]]]; injection H1 as <- <-;
      destruct H2 as [H2|[H2|[H2|[H2|[]]]]]; inversion H2; reflexivity.
Qed.

End AlongTraces.

(** ** The same on concrete inputs *)

Lemma blank_click_changes_nothing_witness :
  forallb isspace (text_input (with_text_input (py "  ") (with_size_var 20 started)))
    = true /\
  box_size (self (snd (_on_generate (with_text_input (py "  ")
                                       (with_size_var 20 started))))) = 10.
Proof.
  assert (forallb isspace
            (text_input (with_text_input (py "  ") (with_size_var 20 started)))
          = true) as H by reflexivity.
  split; [exact H|].
  rewrite (blank_click_changes_nothing _ H). reflexivity.
Defined.

(** The form with a label the dropdown does not offer. *)
Lemma attempt_ultra :
  attempt (with_error_var (py "Ultra") hello) =
    (inl (KeyError (py "Ultra")), with_box_size 10 (with_error_var (py "Ultra") hello)).
Proof. reflexivity. Defined.

Lemma click_error_origin_witness :
  truthy (entered (with_error_var (py "Ultra") hello)) = true /\
  attempt (with_error_var (py "Ultra") hello) =
    (inl (KeyError (py "Ultra")), with_box_size 10 (with_error_var (py "Ultra") hello)) /\
  dict_lookup ERROR_LEVELS (py "Ultra") = None.
Proof.
  assert (truthy (entered (with_error_var (py "Ultra") hello)) = true) as H
    by reflexivity.
  split; [exact H|]. split; [exact attempt_ultra|].
  destruct (click_error_origin _ _ _ H attempt_ultra) as [(L & _)|(level & L & _)];
    [exact L | vm_compute in L; discriminate L].
Defined.

Lemma long_text_trimmed : strip (long_text ++ [10%N]) = long_text.
Proof. vm_compute. reflexivity. Qed.

Lemma long_text_overflows (level : ErrorCorrect) (box border : Z) :
  render level box border long_text (py "black") (py "white")
    = inl (LibraryError (py "DataOverflowError") []).
Proof.
  unfold render, long_text. rewrite repeat_length.
  destruct level; reflexivity.
Qed.

(** A text too long for any symbol, whatever the level. *)
Lemma long_text_refused (w : World) (level : ErrorCorrect) :
  text_input w = long_text ->
  dict_lookup ERROR_LEVELS (error_var w) = Some level ->
  attempt w =
    (inl (LibraryError (py "DataOverflowError") []), settled level w).
Proof.
  intros T L.
  assert (entered w = long_text) as E
    by (unfold entered; rewrite T; apply long_text_trimmed).
  assert (truthy (entered w) = true) as H by (rewrite E; reflexivity).
  destruct (attempt_cases w H)
    as [(L' & _)|[(level' & e & L' & R & A)|(level' & img & L' & R & _)]];
    [congruence| |].
  - assert (level' = level) as -> by congruence.
    rewrite A. f_equal. f_equal.
    rewrite E in R.
    pose proof (long_text_overflows level (size_var w) (border (self w))) as B.
    change (render level (size_var w) (border (self w)) long_text
                   (py "black") (py "white") = inl e) in R.
    congruence.
  - rewrite E in R.
    pose proof (long_text_overflows level' (size_var w) (border (self w))) as B.
    change (render level' (size_var w) (border (self w)) long_text
                   (py "black") (py "white") = inr img) in R.
    congruence.
Qed.

Lemma attempt_long :
  attempt (with_text_input long_text started) =
    (inl (LibraryError (py "DataOverflowError") []),
     settled ERROR_CORRECT_M (with_text_input long_text started)).
Proof. apply long_text_refused; reflexivity. Qed.

Lemma failed_click_keeps_image_and_preview_witness :
  truthy (entered (with_text_input long_text started)) = true /\
  status_var (snd (_on_generate (with_text_input long_text started)))
    = py "Error generating QR code" /\
  last_generated_image (self (snd (_on_generate (with_text_input long_text started))))
    = None.
Proof.
  assert (truthy (entered (with_text_input long_text started)) = true) as H
    by (unfold entered; cbn [text_input with_text_input];
        rewrite long_text_trimmed; reflexivity).
  split; [exact H|].
  destruct (failed_click_keeps_image_and_preview _ _ _ H attempt_long)
    as (_ & S & _ & _ & _ & _ & _ & T & _).
  split; [exact T | exact S].
Defined.

Lemma successful_click_witness :
  truthy (entered (with_size_var 7 (with_error_var (py "High (30%)") hello))) = true /\
  self (snd (_on_generate (with_size_var 7 (with_error_var (py "High (30%)") hello))))
    = {| box_size := 7; border := 4; error_correction := ERROR_CORRECT_H;
         last_generated_image := Some 1%positive |} /\
  files (snd (_on_generate (with_size_var 7 (with_error_var (py "High (30%)") hello))))
    = ∅.
Proof.
  assert (truthy (entered (with_size_var 7 (with_error_var (py "High (30%)") hello)))
          = true) as H by reflexivity.
  split; [exact H|].
  destruct (successful_click (with_size_var 7 (with_error_var (py "High (30%)") hello))
              ERROR_CORRECT_H
              {| pic_level := ERROR_CORRECT_H; pic_box_size := 7; pic_border := 4;
                 pic_data := py "hello world"; pic_fill := black; pic_back := white;
                 pic_scaled := None |}
              H eq_refl eq_refl)
    as (S & _ & _ & _ & _ & _ & F).
  split; [exact S | exact F].
Defined.

Lemma save_click_outcomes_witness :
  last_generated_image (self (stored hello_picture started)) = Some 1%positive /\
  heap (stored hello_picture started) !! 1%positive = Some hello_picture /\
  status_var (snd (_on_save (py "qr.png") (stored hello_picture started)))
    = py "Saved to: qr.png" /\
  status_var (snd (_on_save (py "qr") (stored hello_picture started))) = py "Ready" /\
  screen (snd (_on_save [] (stored hello_picture started))) = [asksaveasfilename []].
Proof.
  assert (last_generated_image (self (stored hello_picture started)) = Some 1%positive)
    as L by reflexivity.
  assert (heap (stored hello_picture started) !! 1%positive = Some hello_picture)
    as K by reflexivity.
  split; [exact L|]. split; [exact K|].
  rewrite (save_click_outcomes _ (py "qr.png") _ _ L K).
  rewrite (save_click_outcomes _ (py "qr") _ _ L K).
  rewrite (save_click_outcomes _ [] _ _ L K).
  repeat split; reflexivity.
Defined.

Lemma image_objects_never_change_witness :
  heap (stored hello_picture started) !! 1%positive = Some hello_picture /\
  heap (run [type_text (py "other"); click_generate; click_save (py "qr.png");
             call_generate (py "third") black white]
            (stored hello_picture started)) !! 1%positive = Some hello_picture.
Proof.
  assert (heap (stored hello_picture started) !! 1%positive = Some hello_picture)
    as K by reflexivity.
  split; [exact K|].
  exact (image_objects_never_change _ _ _ _ K).
Defined.

Lemma box_size_stays_on_slider_witness :
  Forall (fun c => from_slider c = true)
         [type_text (py "hello"); move_slider 20; click_generate; move_slider 5] /\
  5 <= box_size (self (run [type_text (py "hello"); move_slider 20; click_generate;
                            move_slider 5] started)) <= 20.
Proof.
  assert (Forall (fun c => from_slider c = true)
            [type_text (py "hello"); move_slider 20; click_generate; move_slider 5])
    as F by (repeat constructor).
  split; [exact F|].
  exact (proj1 (box_size_stays_on_slider (ext := lib) ∅ _ F)).
Defined.

Lemma attempt_after_typing_long :
  attempt (run [choose_level (py "Low (7%)"); type_text long_text] started) =
    (inl (LibraryError (py "DataOverflowError") []),
     settled ERROR_CORRECT_L
       (run [choose_level (py "Low (7%)"); type_text long_text] started)).
Proof. apply long_text_refused; reflexivity. Qed.

Lemma dropdown_never_key_error_witness :
  Forall (fun c => from_dropdown c = true)
         [choose_level (py "Low (7%)"); type_text long_text] /\
  truthy (entered (run [choose_level (py "Low (7%)"); type_text long_text] started))
    = true /\
  exists level,
    dict_lookup ERROR_LEVELS
      (error_var (run [choose_level (py "Low (7%)"); type_text long_text] started))
      = Some level.
Proof.
  assert (Forall (fun c => from_dropdown c = true)
            [choose_level (py "Low (7%)"); type_text long_text]) as F
    by (repeat constructor).
  assert (truthy (entered (run [choose_level (py "Low (7%)"); type_text long_text]
                               started)) = true) as H
    by (unfold entered; cbn [run fold_left after text_input with_text_input];
        rewrite long_text_trimmed; reflexivity).
  split; [exact F|]. split; [exact H|].
  destruct (dropdown_never_key_error (ext := lib) ∅ _ _ _ F H attempt_after_typing_long)
    as (level & L & _).
  exists level. exact L.
Defined.

Lemma files_change_only_on_save_witness :
  Forall (fun c => is_save c = false)
         [type_text (py "hello"); click_generate;
          call_generate (py "again") black white] /\
  files (run [type_text (py "hello"); click_generate;
              call_generate (py "again") black white] started) = ∅.
Proof.
  assert (Forall (fun c => is_save c = false)
            [type_text (py "hello"); click_generate;
             call_generate (py "again") black white]) as F
    by (repeat constructor).
  split; [exact F|].
  exact (files_change_only_on_save _ started F).
Defined.

Lemma second_image_replaces_first_witness :
  generate (py "hello world") black white started =
    (inr (Some 1%positive), stored hello_picture started) /\
  generate (py "again") black white (stored hello_picture started) =
    (inr (Some 2%positive),
     snd (generate (py "again") black white (stored hello_picture started))) /\
  heap (snd (generate (py "again") black white (stored hello_picture started)))
    !! 1%positive = Some hello_picture.
Proof.
  assert (generate (py "again") black white (stored hello_picture started) =
            (inr (Some 2%positive),
             snd (generate (py "again") black white (stored hello_picture started))))
    as G2 by (vm_compute; reflexivity).
  split; [exact generate_hello|]. split; [exact G2|].
  destruct (second_image_replaces_first _ _ _ _ _ _ _ _ _ _ _ generate_hello G2)
    as (_ & _ & r1 & img1 & E & R & K).
  injection E as <-.
  assert (img1 = hello_picture) as ->
    by (vm_compute in R; injection R as <-; reflexivity).
  exact K.
Defined.

Lemma first_click_uses_defaults_witness :
  forallb isspace (py " hi ") = false /\
  fst (attempt (with_text_input (py " hi ") started)) = inr (Some 1%positive).
Proof.
  assert (forallb isspace (py " hi ") = false) as B by reflexivity.
  split; [exact B|].
  rewrite (proj1 (first_click_uses_defaults (ext := lib) ∅ (py " hi ") B)).
  reflexivity.
Defined.
